(** * LLM router: tiered model selection and batch dispatch

    A shallow embedding of [python/llm_switcher.py] (class [LLMRouter]) and
    the properties of its selection policy, single-item dispatch and batch
    dispatch.

    Modelling conventions
    - Python [float] is IEEE-754 binary64: Rocq's primitive [float], with the
      same rounding for literals, products and comparisons.
    - Python [int] is [Z].  Where an [int] meets a [float] in a product the
      interpreter first converts the [int], and that conversion raises
      [OverflowError] outside the binary64 range; [int_to_float] keeps that.
    - Exceptions are values of type [exn]; code that may raise lives in the
      error monad [M A = exn + A].  [exn] stands for instances of Python's
      [Exception]; interpreter-level signals that are not [Exception]s (task
      cancellation, interpreter exit) are outside the model.
    - A method that assigns to [self] returns the router it leaves behind.
    - The network, the clock and [json.loads] are not code of the router: the
      network is a function from the request (URL, JSON payload, headers) to
      the outcome of the exchange ([http_outcome]), [json.loads] is a section
      variable, and what the batch loop hands to [asyncio.gather] and its
      pauses are recorded in an event trace.  Within a chunk the tasks are
      run in input order, which is the order in which [asyncio.gather]
      returns their outcomes. *)

From Stdlib Require Import ZArith List String Ascii Bool Lia Floats Sorted.
From Stdlib Require Import DecimalString.
Import ListNotations.

Set Warnings "-inexact-float,-register-all".

Local Open Scope Z_scope.
Local Open Scope string_scope.

(** ** Exceptions and the error monad *)

Inductive exn_class : Type :=
| ValueError
| KeyError
| IndexError
| TypeError
| AttributeError
| OverflowError
| JSONDecodeError
| OtherException (cls : string).

(** [exn_str e] is what [str(e)] returns. *)
Record exn : Type := Exn { exn_cls : exn_class; exn_str : string }.

Definition M (A : Type) : Type := (exn + A)%type.

Definition ret {A} (a : A) : M A := inr a.
Definition raise {A} (c : exn_class) (msg : string) : M A := inl (Exn c msg).
Definition bind {A B} (m : M A) (k : A -> M B) : M B :=
  match m with
  | inl e => inl e
  | inr a => k a
  end.

Declare Scope py_scope.
Delimit Scope py_scope with py.
Notation "x <- c ;; k" := (bind c (fun x => k))
  (at level 61, c at next level, right associativity) : py_scope.
Local Open Scope py_scope.

(** A list comprehension whose condition may raise: the first exception
    aborts the whole comprehension. *)
Fixpoint filterM {A} (p : A -> M bool) (l : list A) : M (list A) :=
  match l with
  | [] => ret []
  | x :: t =>
      b <- p x ;;
      t' <- filterM p t ;;
      ret (if b then x :: t' else t')
  end.

(** ** Numbers *)

(** [float(z)] as the interpreter computes it for the operand of a mixed
    product: correctly rounded to binary64 (ties to even), [OverflowError]
    when the rounded value is not finite. *)
Definition int_to_float (z : Z) : M float :=
  match binary_normalize prec emax z 0 false with
  | S754_infinity _ => raise OverflowError "int too large to convert to float"
  | sf => ret (SF2Prim sf)
  end.

(** [f * z] for a float [f] and an int [z]. *)
Definition float_mul_int (f : float) (z : Z) : M float :=
  zf <- int_to_float z ;;
  ret (PrimFloat.mul f zf).

(** Truth value of an optional float: [None], [0.0] and [-0.0] are false,
    everything else (NaN included) is true. *)
Definition float_truthy (f : float) : bool := negb (PrimFloat.eqb f 0%float).

(** ** [sorted] and [min] with a float key *)

Section KeyedOrder.
Context {A : Type} (key : A -> float).

(** Stable insertion: [x] comes from the left of everything in [l], so
    it passes only the elements strictly smaller than itself. *)
Fixpoint insert_stable (x : A) (l : list A) : list A :=
  match l with
  | [] => [x]
  | y :: t =>
      if PrimFloat.ltb (key y) (key x) then y :: insert_stable x t
      else x :: y :: t
  end.

Definition stable_sort (l : list A) : list A :=
  fold_right insert_stable [] l.

(** [sorted(l, key=key, reverse=reverse)].  With [reverse=True] the
    interpreter reverses the list, sorts it, and reverses the result,
    which keeps equal keys in their original order. *)
Definition py_sorted (reverse : bool) (l : list A) : list A :=
  if reverse then rev (stable_sort (rev l)) else stable_sort l.

(** [min(l, key=key)]: the first element with the smallest key;
    [ValueError] on an empty list. *)
Definition py_min (l : list A) : M A :=
  match l with
  | [] => raise ValueError "min() arg is an empty sequence"
  | x :: t =>
      ret (fold_left
             (fun best y => if PrimFloat.ltb (key y) (key best) then y else best)
             t x)
  end.
End KeyedOrder.

(** ** Data model *)

Inductive UserTier : Type := FREE | PRO | PREMIUM.

Inductive AIOperation : Type :=
| CATEGORIZE
| SUMMARIZE
| EXTRACT_INSIGHTS
| GENERATE_TAGS.

Definition UserTier_eqb (a b : UserTier) : bool :=
  match a, b with
  | FREE, FREE | PRO, PRO | PREMIUM, PREMIUM => true
  | _, _ => false
  end.

Definition AIOperation_eqb (a b : AIOperation) : bool :=
  match a, b with
  | CATEGORIZE, CATEGORIZE | SUMMARIZE, SUMMARIZE
  | EXTRACT_INSIGHTS, EXTRACT_INSIGHTS | GENERATE_TAGS, GENERATE_TAGS => true
  | _, _ => false
  end.

Record ModelConfig : Type := mkModelConfig {
  name : string;
  cost_per_token : float;
  max_tokens : Z;
  api_endpoint : string;
  supports_json : bool
}.

Definition openrouter : string := "https://openrouter.ai/api/v1/chat/completions".

Definition claude_3_haiku : ModelConfig :=
  mkModelConfig "anthropic/claude-3-haiku" 0.00000025%float 4000 openrouter true.
Definition gpt_3_5_turbo : ModelConfig :=
  mkModelConfig "openai/gpt-3.5-turbo" 0.000002%float 4000 openrouter true.
Definition claude_3_sonnet : ModelConfig :=
  mkModelConfig "anthropic/claude-3-sonnet" 0.000015%float 4000 openrouter true.
Definition gpt_4 : ModelConfig :=
  mkModelConfig "openai/gpt-4" 0.00003%float 8000 openrouter true.
Definition claude_3_opus : ModelConfig :=
  mkModelConfig "anthropic/claude-3-opus" 0.000075%float 4000 openrouter true.

(** The tier-keyed catalog built by [LLMRouter._initialize_models]. *)
Definition _initialize_models (t : UserTier) : list ModelConfig :=
  match t with
  | FREE => [claude_3_haiku; gpt_3_5_turbo]
  | PRO => [claude_3_sonnet; gpt_4; gpt_3_5_turbo]
  | PREMIUM => [claude_3_opus; gpt_4; claude_3_sonnet]
  end.

(** The HTTP client session the router opens on first use. *)
Record ClientSession : Type := mkClientSession { closed : bool }.

Record LLMRouter : Type := mkLLMRouter {
  api_key : string;
  models : UserTier -> list ModelConfig;
  session : option ClientSession
}.

(** [LLMRouter.__init__] *)
Definition LLMRouter_init (openrouter_api_key : string) : LLMRouter :=
  mkLLMRouter openrouter_api_key _initialize_models None.

(** ** Selection policy *)

Definition sort_for_operation (operation : AIOperation)
    (available_models : list ModelConfig) : list ModelConfig :=
  match operation with
  | CATEGORIZE | GENERATE_TAGS => py_sorted cost_per_token false available_models
  | EXTRACT_INSIGHTS | SUMMARIZE => py_sorted cost_per_token true available_models
  end.

(** The condition of the budget comprehension. *)
Definition within_budget (estimated_tokens : Z) (budget_constraint : float)
    (m : ModelConfig) : M bool :=
  c <- float_mul_int (cost_per_token m) estimated_tokens ;;
  ret (PrimFloat.leb c budget_constraint).

(** [if budget_constraint: ...]: the guard is the truth value of an
    [Optional[float]], false for [None] and for zero. *)
Definition apply_budget (content_length : Z) (budget_constraint : option float)
    (available_models : list ModelConfig) : M (list ModelConfig) :=
  match budget_constraint with
  | Some b =>
      if float_truthy b then
        let estimated_tokens := Z.min (content_length * 2) 500 in
        filterM (within_budget estimated_tokens b) available_models
      else ret available_models
  | None => ret available_models
  end.

Definition fits_length (content_length : Z) (m : ModelConfig) : bool :=
  max_tokens m >=? content_length.

Definition select_optimal_model (self : LLMRouter) (content_length : Z)
    (user_tier : UserTier) (operation : AIOperation)
    (budget_constraint : option float) : M ModelConfig :=
  let available_models := models self user_tier in
  let available_models := sort_for_operation operation available_models in
  available_models <- apply_budget content_length budget_constraint available_models ;;
  let available_models := filter (fits_length content_length) available_models in
  match available_models with
  | [] => py_min cost_per_token (models self user_tier)
  | m :: _ => ret m
  end.

(** ** Values decoded from a JSON body *)

Inductive pyval : Type :=
| PNone
| PBool (b : bool)
| PInt (z : Z)
| PFloat (f : float)
| PStr (s : string)
| PList (l : list pyval)
| PDict (d : list (string * pyval)).

Definition type_name (v : pyval) : string :=
  match v with
  | PNone => "NoneType"
  | PBool _ => "bool"
  | PInt _ => "int"
  | PFloat _ => "float"
  | PStr _ => "str"
  | PList _ => "list"
  | PDict _ => "dict"
  end.

Fixpoint dict_lookup (key : string) (d : list (string * pyval)) : option pyval :=
  match d with
  | [] => None
  | (k, v) :: t => if String.eqb k key then Some v else dict_lookup key t
  end.

(** [bool(v)] *)
Definition truthy (v : pyval) : bool :=
  match v with
  | PNone => false
  | PBool b => b
  | PInt z => negb (z =? 0)%Z
  | PFloat f => float_truthy f
  | PStr s => negb (String.eqb s "")
  | PList l => match l with [] => false | _ => true end
  | PDict d => match d with [] => false | _ => true end
  end.

(** [needle in hay] for two strings. *)
Fixpoint substringb (needle hay : string) : bool :=
  String.prefix needle hay ||
  match hay with
  | EmptyString => false
  | String _ t => substringb needle t
  end.

(** [key in v] for a string [key]. *)
Definition py_contains (key : string) (v : pyval) : M bool :=
  match v with
  | PDict d => ret (match dict_lookup key d with Some _ => true | None => false end)
  | PList l =>
      ret (existsb (fun x => match x with PStr s => String.eqb s key | _ => false end) l)
  | PStr s => ret (substringb key s)
  | _ => raise TypeError ("argument of type '" ++ type_name v ++ "' is not iterable")
  end.

(** [v[key]] for a string [key]. *)
Definition getitem_str (v : pyval) (key : string) : M pyval :=
  match v with
  | PDict d =>
      match dict_lookup key d with
      | Some x => ret x
      | None => raise KeyError ("'" ++ key ++ "'")
      end
  | PList _ => raise TypeError "list indices must be integers or slices, not str"
  | PStr _ => raise TypeError "string indices must be integers, not 'str'"
  | _ => raise TypeError ("'" ++ type_name v ++ "' object is not subscriptable")
  end.

(** [v[0]] *)
Definition getitem_0 (v : pyval) : M pyval :=
  match v with
  | PList l =>
      match l with
      | x :: _ => ret x
      | [] => raise IndexError "list index out of range"
      end
  | PStr s =>
      match s with
      | String c _ => ret (PStr (String c EmptyString))
      | EmptyString => raise IndexError "string index out of range"
      end
  | PDict _ => raise KeyError "0"
  | _ => raise TypeError ("'" ++ type_name v ++ "' object is not subscriptable")
  end.

(** [v.get(key, default)] *)
Definition py_get (v : pyval) (key : string) (default : pyval) : M pyval :=
  match v with
  | PDict d =>
      ret (match dict_lookup key d with Some x => x | None => default end)
  | _ => raise AttributeError ("'" ++ type_name v ++ "' object has no attribute 'get'")
  end.

(** [v * f] for a float [f]. *)
Definition py_mul_float (v : pyval) (f : float) : M float :=
  match v with
  | PInt z => zf <- int_to_float z ;; ret (PrimFloat.mul zf f)
  | PBool b => ret (PrimFloat.mul (if b then 1%float else 0%float) f)
  | PFloat g => ret (PrimFloat.mul g f)
  | PStr _ | PList _ =>
      raise TypeError "can't multiply sequence by non-int of type 'float'"
  | _ =>
      raise TypeError
        ("unsupported operand type(s) for *: '" ++ type_name v ++ "' and 'float'")
  end.

(** ** Single-item dispatch *)

Record ProcessingResult : Type := mkProcessingResult {
  success : bool;
  result : option pyval;
  error : option string;
  model_used : option string;
  tokens_used : option pyval;
  cost : option float
}.

(** What the one HTTP exchange of a dispatch does: [session.post] raises, or
    it yields a response with a status, a text body (read on a non-200
    status) and a decoded JSON body (read on status 200); reading either
    body may raise as well. *)
Inductive http_outcome : Type :=
| PostRaises (e : exn)
| PostResponse (status : Z) (text : M string) (json : M pyval).

(** The network: what a POST of a JSON payload with headers to a URL
    yields. *)
Definition network : Type :=
  string -> pyval -> list (string * string) -> http_outcome.

Definition nl : string := String (ascii_of_nat 10) "".
Definition dq : string := String (ascii_of_nat 34) "".
Definition quoted (s : string) : string := dq ++ s ++ dq.
Definition lines (ls : list string) : string := String.concat nl ls.

(** [LLMRouter.create_prompt]: the operation's template around the raw
    content. *)
Definition create_prompt (content : string) (operation : AIOperation) : string :=
  match operation with
  | CATEGORIZE =>
      lines
        [ "Analyze the following tweet and categorize it into one of these categories: ";
          "Technology, Business, Education, Entertainment, News, Personal, Health, Sports, Travel, Food, Politics, Science, Art, Finance, Other.";
          "";
          "Also provide 3-5 relevant tags and a brief summary (max 100 words).";
          "";
          "Tweet: " ++ quoted content;
          "";
          "Respond in JSON format:";
          "{";
          "    " ++ quoted "category" ++ ": " ++ quoted "category_name" ++ ",";
          "    " ++ quoted "tags" ++ ": [" ++ quoted "tag1" ++ ", " ++ quoted "tag2"
            ++ ", " ++ quoted "tag3" ++ "],";
          "    " ++ quoted "summary" ++ ": " ++ quoted "brief summary" ++ ",";
          "    " ++ quoted "confidence" ++ ": 0.95";
          "}" ]
  | SUMMARIZE =>
      lines
        [ "Provide a concise summary of the following tweet content in 1-2 sentences:";
          "";
          "Tweet: " ++ quoted content;
          "";
          "Focus on the main message and key points. Be clear and concise." ]
  | EXTRACT_INSIGHTS =>
      lines
        [ "Extract key insights and actionable items from the following tweet:";
          "";
          "Tweet: " ++ quoted content;
          "";
          "Respond in JSON format:";
          "{";
          "    " ++ quoted "insights" ++ ": [" ++ quoted "insight1" ++ ", "
            ++ quoted "insight2" ++ "],";
          "    " ++ quoted "actionable_items" ++ ": [" ++ quoted "action1" ++ ", "
            ++ quoted "action2" ++ "],";
          "    " ++ quoted "importance" ++ ": " ++ quoted "high/medium/low" ++ ",";
          "    " ++ quoted "topics" ++ ": [" ++ quoted "topic1" ++ ", "
            ++ quoted "topic2" ++ "]";
          "}" ]
  | GENERATE_TAGS =>
      lines
        [ "Generate 5-10 relevant tags for the following tweet content:";
          "";
          "Tweet: " ++ quoted content;
          "";
          "Respond in JSON format:";
          "{";
          "    " ++ quoted "tags" ++ ": [" ++ quoted "tag1" ++ ", " ++ quoted "tag2"
            ++ ", " ++ quoted "tag3" ++ ", " ++ quoted "tag4" ++ ", "
            ++ quoted "tag5" ++ "],";
          "    " ++ quoted "primary_topic" ++ ": " ++ quoted "main_topic" ++ ",";
          "    " ++ quoted "sentiment" ++ ": " ++ quoted "positive/negative/neutral";
          "}" ]
  end.

(** The [payload] dictionary of a request. *)
Definition request_payload (model : ModelConfig) (prompt : string)
    (operation : AIOperation) : pyval :=
  PDict
    [ ("model", PStr (name model));
      ("messages", PList [PDict [("role", PStr "user"); ("content", PStr prompt)]]);
      ("max_tokens", PInt (Z.min 500 (max_tokens model)));
      ("temperature",
       PFloat (if AIOperation_eqb operation CATEGORIZE then 0.3%float else 0.7%float)) ].

(** The [headers] dictionary of a request. *)
Definition request_headers (api_key : string) : list (string * string) :=
  [ ("Authorization", "Bearer " ++ api_key);
    ("Content-Type", "application/json");
    ("X-Title", "Second Brain Android App") ].

(** The exchange of one dispatch: the POST that [process_content] issues
    for [content] once [model] is selected. *)
Definition exchange (net : network) (api_key : string) (model : ModelConfig)
    (content : string) (operation : AIOperation) : http_outcome :=
  net (api_endpoint model)
      (request_payload model (create_prompt content operation) operation)
      (request_headers api_key).

Definition str_of_int (z : Z) : string := NilZero.string_of_int (Z.to_int z).

Definition structured (operation : AIOperation) : bool :=
  match operation with
  | CATEGORIZE | EXTRACT_INSIGHTS | GENERATE_TAGS => true
  | SUMMARIZE => false
  end.

Definition is_JSONDecodeError (e : exn) : bool :=
  match exn_cls e with
  | JSONDecodeError => true
  | _ => false
  end.

Section Dispatch.
(** [json.loads] on a [str]: the decoded value, [JSONDecodeError] on
    malformed text, or whatever else the decoder raises. *)
Variable json_loads : string -> M pyval.

(** [json.loads(v)] on an arbitrary value. *)
Definition json_loads_val (v : pyval) : M pyval :=
  match v with
  | PStr s => json_loads s
  | _ =>
      raise TypeError
        ("the JSON object must be str, bytes or bytearray, not " ++ type_name v)
  end.

(** The [try: ... except json.JSONDecodeError:] around the decoding. *)
Definition parse_result (operation : AIOperation) (result_text : pyval) : M pyval :=
  if structured operation then
    match json_loads_val result_text with
    | inr v => ret v
    | inl e =>
        if is_JSONDecodeError e then ret (PDict [("text", result_text)])
        else inl e
    end
  else ret (PDict [("text", result_text)]).

(** The body of [async with self.session.post(...) as response:]. *)
Definition handle_response (model : ModelConfig) (operation : AIOperation)
    (status : Z) (text : M string) (json : M pyval) : M ProcessingResult :=
  if negb (status =? 200)%Z then
    error_text <- text ;;
    ret (mkProcessingResult false None
           (Some ("API request failed with status " ++ str_of_int status
                  ++ ": " ++ error_text))
           (Some (name model)) None None)
  else
    data <- json ;;
    has_choices <- py_contains "choices" data ;;
    no_choices <-
      (if negb has_choices then ret true
       else choices <- getitem_str data "choices" ;; ret (negb (truthy choices))) ;;
    if (no_choices : bool) then
      ret (mkProcessingResult false None (Some "No response from model")
             (Some (name model)) None None)
    else
      choices <- getitem_str data "choices" ;;
      choice <- getitem_0 choices ;;
      message <- getitem_str choice "message" ;;
      result_text <- getitem_str message "content" ;;
      usage <- py_get data "usage" (PDict []) ;;
      tokens_used <- py_get usage "total_tokens" (PInt 0) ;;
      cost <- py_mul_float tokens_used (cost_per_token model) ;;
      result <- parse_result operation result_text ;;
      ret (mkProcessingResult true (Some result) None (Some (name model))
             (Some tokens_used) (Some cost)).

(** The part of the [try] body that runs once [model] is bound. *)
Definition dispatch (model : ModelConfig) (operation : AIOperation)
    (net : http_outcome) : M ProcessingResult :=
  match net with
  | PostRaises e => inl e
  | PostResponse status text json => handle_response model operation status text json
  end.

Definition failed (e : exn) (model_used : option string) : ProcessingResult :=
  mkProcessingResult false None (Some (exn_str e)) model_used None None.

(** [if not self.session: self.session = aiohttp.ClientSession()] *)
Definition ensure_session (self : LLMRouter) : LLMRouter :=
  match session self with
  | Some _ => self
  | None => mkLLMRouter (api_key self) (models self) (Some (mkClientSession false))
  end.

Definition process_content (self : LLMRouter) (content : string)
    (operation : AIOperation) (user_tier : UserTier)
    (budget_constraint : option float) (net : network)
    : LLMRouter * ProcessingResult :=
  let self := ensure_session self in
  (self,
   match select_optimal_model self (Z.of_nat (String.length content))
           user_tier operation budget_constraint with
   | inl e => failed e None
   | inr model =>
       let prompt := create_prompt content operation in
       let payload := request_payload model prompt operation in
       let headers := request_headers (api_key self) in
       match dispatch model operation (net (api_endpoint model) payload headers) with
       | inl e => failed e (Some (name model))
       | inr r => r
       end
   end).
End Dispatch.

(** ** Batch dispatch *)

(** What the batch loop does besides computing results: it hands a chunk
    to [asyncio.gather], and it sleeps. *)
Inductive event : Type :=
| Dispatch (batch : list string)
| Sleep (seconds : Z).

(** [range(0, stop, step)] for a positive [step]. *)
Definition py_range (stop step : nat) : list nat :=
  map (fun k => k * step)%nat
      (seq 0 (if (stop =? 0)%nat then 0 else (stop - 1) / step + 1)%nat).

(** [contents[i:j]] for [0 <= i <= j]. *)
Definition py_slice {A} (l : list A) (i j : nat) : list A :=
  firstn (j - i) (skipn i l).

Definition batch_size_for (user_tier : UserTier) : nat :=
  if UserTier_eqb user_tier FREE then 5%nat else 20%nat.

Record batch_state : Type := mkBatchState {
  bs_self : LLMRouter;
  bs_results : list ProcessingResult;
  bs_trace : list event
}.

Section BatchLoop.
(** One task of a chunk as [asyncio.gather(..., return_exceptions=True)]
    reports it: the value the coroutine returned, or the exception it
    raised.  The task for the item at position [k] of the input is
    [run self k content]. *)
Variable run : LLMRouter -> nat -> string -> LLMRouter * (exn + ProcessingResult).

(** The tasks of a chunk share the router; their outcomes come back in
    task order. *)
Fixpoint gather (self : LLMRouter) (k : nat) (batch : list string)
    : LLMRouter * list (exn + ProcessingResult) :=
  match batch with
  | [] => (self, [])
  | content :: rest =>
      let '(self, r) := run self k content in
      let '(self, rs) := gather self (S k) rest in
      (self, r :: rs)
  end.

(** The [isinstance(result, Exception)] test of the collecting loop. *)
Definition collect (r : exn + ProcessingResult) : ProcessingResult :=
  match r with
  | inl e => mkProcessingResult false None (Some (exn_str e)) None None None
  | inr res => res
  end.

(** One iteration of [for i in range(0, len(contents), batch_size)]. *)
Definition batch_step (contents : list string) (batch_size : nat)
    (st : batch_state) (i : nat) : batch_state :=
  let batch := py_slice contents i (i + batch_size) in
  let '(self, batch_results) := gather (bs_self st) i batch in
  let results := (bs_results st ++ map collect batch_results)%list in
  let trace := (bs_trace st ++ [Dispatch batch])%list in
  let trace :=
    if (i + batch_size <? List.length contents)%nat
    then (trace ++ [Sleep 2])%list else trace in
  mkBatchState self results trace.

Definition batch_loop (self : LLMRouter) (contents : list string)
    (user_tier : UserTier) : batch_state :=
  let batch_size := batch_size_for user_tier in
  fold_left (batch_step contents batch_size)
            (py_range (List.length contents) batch_size)
            (mkBatchState self [] []).
End BatchLoop.

Section Batch.
Variable json_loads : string -> M pyval.

(** The coroutine [self.process_content(content, ...)] as a task: the
    item at position [k] talks to the network [net k]. *)
Definition process_content_task (operation : AIOperation) (user_tier : UserTier)
    (budget_constraint : option float) (net : nat -> network)
    (self : LLMRouter) (k : nat) (content : string)
    : LLMRouter * (exn + ProcessingResult) :=
  let '(self, r) :=
    process_content json_loads self content operation user_tier
                    budget_constraint (net k) in
  (self, inr r).

Definition process_batch (self : LLMRouter) (contents : list string)
    (operation : AIOperation) (user_tier : UserTier)
    (budget_constraint : option float) (net : nat -> network)
    : batch_state :=
  batch_loop (process_content_task operation user_tier budget_constraint net)
             self contents user_tier.
End Batch.

(** [LLMRouter.close] *)
Definition close (self : LLMRouter) : LLMRouter :=
  match session self with
  | Some _ => mkLLMRouter (api_key self) (models self) (Some (mkClientSession true))
  | None => self
  end.

(** ** Specification vocabulary *)

(** A rank that orders the non-NaN values of [spec_float] as [SFcompare]
    does: first by class and sign, then by exponent, then by mantissa. *)
Definition rank (f : spec_float) : Z * Z * Z :=
  match f with
  | S754_zero _ => (0, 0, 0)
  | S754_nan => (0, 0, 0)
  | S754_infinity false => (2, 0, 0)
  | S754_infinity true => (-2, 0, 0)
  | S754_finite false m e => (1, e, Z.pos m)
  | S754_finite true m e => (-1, - e, Z.neg m)
  end%Z.

Definition lex_lt (a b : Z * Z * Z) : Prop :=
  let '(a1, a2, a3) := a in
  let '(b1, b2, b3) := b in
  (a1 < b1 \/ (a1 = b1 /\ (a2 < b2 \/ (a2 = b2 /\ a3 < b3))))%Z.

(** [float(z)] when it does not overflow. *)
Definition Z2float (z : Z) : float :=
  SF2Prim (binary_normalize prec emax z 0 false).

(** The budget test of the specification:
    [costPerToken * min(contentLength * 2, 500) <= budget]. *)
Definition affordable (content_length : Z) (budget : float) (m : ModelConfig) : bool :=
  PrimFloat.leb
    (PrimFloat.mul (cost_per_token m) (Z2float (Z.min (content_length * 2) 500)))
    budget.

(** What the budget comprehension keeps: everything when the guard
    [if budget_constraint:] is false, the affordable descriptors otherwise. *)
Definition passes_budget (content_length : Z) (budget_constraint : option float)
    (m : ModelConfig) : bool :=
  match budget_constraint with
  | Some b => if float_truthy b then affordable content_length b m else true
  | None => true
  end.

(** Membership in the post-filter candidate set. *)
Definition eligible (content_length : Z) (budget_constraint : option float)
    (m : ModelConfig) : bool :=
  passes_budget content_length budget_constraint m && fits_length content_length m.

(** A router as [__init__] builds it, in any state of its session. *)
Definition router (key : string) (sess : option ClientSession) : LLMRouter :=
  mkLLMRouter key _initialize_models sess.

(** What the cost computation reads from a decoded body:
    [data.get("usage", {}).get("total_tokens", 0)] when [usage] is absent
    or an object. *)
Definition token_count (d : list (string * pyval)) : option pyval :=
  match dict_lookup "usage" d with
  | None => Some (PInt 0)
  | Some (PDict u) =>
      match dict_lookup "total_tokens" u with
      | None => Some (PInt 0)
      | Some v => Some v
      end
  | Some _ => None
  end.

(** The body carries no [usage.total_tokens]: no [usage] entry, or a
    [usage] object without [total_tokens]. *)
Definition lacks_total_tokens (d : list (string * pyval)) : Prop :=
  dict_lookup "usage" d = None \/
  exists u, dict_lookup "usage" d = Some (PDict u) /\
            dict_lookup "total_tokens" u = None.

(** The text of the first choice: [data["choices"][0]["message"]["content"]]
    for a body whose [choices] is a non-empty list. *)
Definition first_choice_content (d : list (string * pyval)) (v : pyval) : Prop :=
  exists choice rest message,
    dict_lookup "choices" d = Some (PList (PDict choice :: rest)) /\
    dict_lookup "message" choice = Some (PDict message) /\
    dict_lookup "content" message = Some v.

(** The number of chunks of a batch: the length of the loop's [range]. *)
Definition chunk_count (len batch_size : nat) : nat :=
  if (len =? 0)%nat then 0%nat else ((len - 1) / batch_size + 1)%nat.

(** The [k]-th chunk of a batch. *)
Definition chunk_at (batch_size : nat) (contents : list string) (k : nat)
    : list string :=
  firstn batch_size (skipn (k * batch_size) contents).

Definition chunks (batch_size : nat) (contents : list string) : list (list string) :=
  map (chunk_at batch_size contents)
      (seq 0 (chunk_count (List.length contents) batch_size)).

(** Chunks dispatched in order, with a pause of 2 between consecutive
    chunks and none after the last. *)
Fixpoint schedule (cs : list (list string)) : list event :=
  match cs with
  | [] => []
  | c :: rest =>
      match rest with
      | [] => [Dispatch c]
      | _ :: _ => Dispatch c :: Sleep 2 :: schedule rest
      end
  end.

(** ** Fixtures for the examples *)

(** A decoder that rejects every text. *)
Definition reject_all (s : string) : M pyval :=
  raise JSONDecodeError "Expecting value: line 1 column 1 (char 0)".

Definition body_with (content : pyval) (extra : list (string * pyval)) : pyval :=
  PDict (("choices", PList [PDict [("message", PDict [("content", content)])]])
         :: extra).

(** A body with one choice whose text is not JSON, and a usage entry. *)
Definition plain_text_body : list (string * pyval) :=
  [ ("choices", PList [PDict [("message", PDict [("content", PStr "not json")])]]);
    ("usage", PDict [("total_tokens", PInt 42)]) ].

(** A catalog with tied costs. *)
Definition tied_catalog : list ModelConfig :=
  [ mkModelConfig "a" 2%float 100 openrouter true;
    mkModelConfig "b" 1%float 100 openrouter true;
    mkModelConfig "c" 1%float 100 openrouter true;
    mkModelConfig "d" 2%float 100 openrouter true ].

Definition tied_router : LLMRouter :=
  mkLLMRouter "sk" (fun _ => tied_catalog) None.

Section OrderVocabulary.
Context {A : Type} (key : A -> float).
Local Open Scope list_scope.
Local Notation "x <k y" := (PrimFloat.ltb (key x) (key y)) (at level 70).

(** No element is followed by one of strictly smaller key. *)
Definition ordered : list A -> Prop :=
  StronglySorted (fun a b => (b <k a) = false).

(** [m] is the first element of [l] with the smallest key. *)
Definition first_min (l : list A) (m : A) : Prop :=
  exists l1 l2, l = l1 ++ m :: l2 /\
    (forall x, In x l1 -> (m <k x) = true) /\
    (forall x, In x l2 -> (x <k m) = false).

(** [m] is the first element of [l] with the largest key. *)
Definition first_max (l : list A) (m : A) : Prop :=
  exists l1 l2, l = l1 ++ m :: l2 /\
    (forall x, In x l1 -> (x <k m) = true) /\
    (forall x, In x l2 -> (m <k x) = false).

(** [m] is the last element of [l] with the largest key. *)
Definition last_max (l : list A) (m : A) : Prop :=
  exists l1 l2, l = l1 ++ m :: l2 /\
    (forall x, In x l1 -> (m <k x) = false) /\
    (forall x, In x l2 -> (x <k m) = true).
End OrderVocabulary.

(** ** Command line *)

(** The value of an enumeration member, and the lookup by value that
    [AIOperation(...)] and [UserTier(...)] perform. *)
Definition AIOperation_value (operation : AIOperation) : string :=
  match operation with
  | CATEGORIZE => "categorize"
  | SUMMARIZE => "summarize"
  | EXTRACT_INSIGHTS => "extract_insights"
  | GENERATE_TAGS => "generate_tags"
  end.

Definition UserTier_value (user_tier : UserTier) : string :=
  match user_tier with
  | FREE => "free"
  | PRO => "pro"
  | PREMIUM => "premium"
  end.

Definition AIOperation_of_value (s : string) : M AIOperation :=
  if String.eqb s "categorize" then ret CATEGORIZE
  else if String.eqb s "summarize" then ret SUMMARIZE
  else if String.eqb s "extract_insights" then ret EXTRACT_INSIGHTS
  else if String.eqb s "generate_tags" then ret GENERATE_TAGS
  else raise ValueError ("'" ++ s ++ "' is not a valid AIOperation").

Definition UserTier_of_value (s : string) : M UserTier :=
  if String.eqb s "free" then ret FREE
  else if String.eqb s "pro" then ret PRO
  else if String.eqb s "premium" then ret PREMIUM
  else raise ValueError ("'" ++ s ++ "' is not a valid UserTier").

(** The [choices] of [--operation] and [--user-tier]. *)
Definition operation_choices : list string :=
  ["categorize"; "summarize"; "extract_insights"; "generate_tags"].

Definition user_tier_choices : list string := ["free"; "pro"; "premium"].

(** The namespace [parser.parse_args()] returns. *)
Record Namespace : Type := mkNamespace {
  arg_content : string;
  arg_operation : string;
  arg_user_tier : string;
  arg_budget : option float
}.

(** [print(json.dumps(v, indent=indent))] *)
Inductive output_line : Type :=
| JsonDump (v : pyval) (indent : option Z).

Record main_outcome : Type := mkMainOutcome {
  printed : list output_line;
  exit_code : Z;
  final_router : option LLMRouter
}.

Definition opt_val {A} (f : A -> pyval) (o : option A) : pyval :=
  match o with
  | Some a => f a
  | None => PNone
  end.

(** The [output] dictionary [main] prints for a result. *)
Definition result_output (r : ProcessingResult) : pyval :=
  PDict
    [ ("success", PBool (success r));
      ("result", opt_val (fun v => v) (result r));
      ("error", opt_val PStr (error r));
      ("model_used", opt_val PStr (model_used r));
      ("tokens_used", opt_val (fun v => v) (tokens_used r));
      ("cost", opt_val PFloat (cost r)) ].

Definition error_output (msg : string) : pyval :=
  PDict [("success", PBool false); ("error", PStr msg)].

Section Main.
Variable json_loads : string -> M pyval.

(** [main], from the namespace [parser.parse_args()] returned on.  What
    [argparse] does on its own comes before this function and is not part
    of it: for [-h], a missing [--content], a [--budget] that is not a
    float, or an operation or tier outside the [choices], [parse_args]
    exits (status 0 for [-h], 2 otherwise, nothing on standard output) and
    returns no namespace.  So the namespaces [main] receives have their
    operation and tier among the choices, and the properties of [main] are
    stated for those; the [ValueError] of the enumeration lookups, which
    the source's [except] clause would catch, cannot occur for them.
    [env_key] is [os.getenv('OPENROUTER_API_KEY')].  A normal return is
    exit status 0, [sys.exit(1)] is exit status 1; the [finally] clause
    closes the router on both paths of the [try]. *)
Definition main (env_key : option string) (args : Namespace) (net : network)
    : main_outcome :=
  match env_key with
  | None | Some EmptyString =>
      mkMainOutcome
        [JsonDump (error_output "OPENROUTER_API_KEY environment variable not set") None]
        1 None
  | Some api_key =>
      let router := LLMRouter_init api_key in
      match (operation <- AIOperation_of_value (arg_operation args) ;;
             user_tier <- UserTier_of_value (arg_user_tier args) ;;
             ret (operation, user_tier)) with
      | inr (operation, user_tier) =>
          let '(router, r) :=
            process_content json_loads router (arg_content args) operation
                            user_tier (arg_budget args) net in
          mkMainOutcome [JsonDump (result_output r) (Some 2)] 0
                        (Some (close router))
      | inl e =>
          mkMainOutcome [JsonDump (error_output (exn_str e)) None] 1
                        (Some (close router))
      end
  end.
End Main.

(** ** Vocabulary for the further properties *)



(** The values a token count can have for the cost product to be defined:
    an [int], a [bool] or a [float]. *)
Definition is_number (v : pyval) : bool :=
  match v with
  | PInt _ | PBool _ | PFloat _ => true
  | _ => false
  end.

(** The shape every result has: a success carries no error, a token count
    that is a number, a cost and the model's name (its payload is whatever
    was decoded, which can be [null]); a failure carries an error and no
    payload, token count or cost. *)
Definition well_shaped (r : ProcessingResult) : Prop :=
  if success r
  then error r = None /\
       (exists t, tokens_used r = Some t /\ is_number t = true) /\
       cost r <> None /\ model_used r <> None
  else error r <> None /\ result r = None /\ tokens_used r = None /\
       cost r = None.

(** A network that answers 429 to everything, and one that does so at
    the OpenRouter URL and refuses every other connection. *)
Definition rate_limiting : network :=
  fun _ _ _ => PostResponse 429 (ret "slow down") (ret PNone).

Definition rate_limiting_openrouter : network :=
  fun url _ _ =>
    if String.eqb url openrouter
    then PostResponse 429 (ret "slow down") (ret PNone)
    else PostRaises (Exn (OtherException "ClientConnectorError") "refused").



(** ** Order facts about binary64 comparisons *)

(** Case analysis on two [spec_float]s that are not NaN, down to the
    comparisons of exponents and mantissas. *)
Ltac sf_compare_cases a b :=
  destruct a as [[]|[]| |[] ?ma ?ea]; destruct b as [[]|[]| |[] ?mb ?eb];
  try congruence; cbn [rank lex_lt];
  try (split; intros; try discriminate; try reflexivity; lia);
  match goal with
  | |- context [Z.compare ?ea ?eb] =>
      destruct (Z.compare_spec ea eb);
      [ match goal with
        | |- context [Pcompare ?ma ?mb Eq] =>
            change (Pcompare ma mb Eq) with (Pos.compare ma mb);
            destruct (Pos.compare_spec ma mb)
        end | | ];
      cbn; split; intros; try discriminate; try reflexivity; lia
  end.

Section FloatOrder.
Local Open Scope Z_scope.

Lemma SFltb_rank (a b : spec_float) :
  a <> S754_nan -> b <> S754_nan ->
  (SFltb a b = true <-> lex_lt (rank a) (rank b)).
Proof. intros Ha Hb. unfold SFltb, SFcompare. sf_compare_cases a b. Qed.

Lemma SFleb_rank (a b : spec_float) :
  a <> S754_nan -> b <> S754_nan ->
  (SFleb a b = true <-> ~ lex_lt (rank b) (rank a)).
Proof. intros Ha Hb. unfold SFleb, SFcompare. sf_compare_cases a b. Qed.

Lemma SFeqb_rank (a b : spec_float) :
  a <> S754_nan -> b <> S754_nan ->
  (SFeqb a b = true <-> ~ lex_lt (rank a) (rank b) /\ ~ lex_lt (rank b) (rank a)).
Proof. intros Ha Hb. unfold SFeqb, SFcompare. sf_compare_cases a b. Qed.

Lemma lex_lt_asym a b : lex_lt a b -> ~ lex_lt b a.
Proof. destruct a as [[a1 a2] a3], b as [[b1 b2] b3]; cbn; lia. Qed.

Lemma lex_lt_negtrans a b c : ~ lex_lt a b -> ~ lex_lt b c -> ~ lex_lt a c.
Proof.
  destruct a as [[a1 a2] a3], b as [[b1 b2] b3], c as [[c1 c2] c3]; cbn; lia.
Qed.

Lemma lex_lt_trans a b c : lex_lt a b -> lex_lt b c -> lex_lt a c.
Proof.
  destruct a as [[a1 a2] a3], b as [[b1 b2] b3], c as [[c1 c2] c3]; cbn; lia.
Qed.

Lemma Prim2SF_not_nan (x : float) :
  PrimFloat.is_nan x = false -> Prim2SF x <> S754_nan.
Proof.
  unfold PrimFloat.is_nan. rewrite eqb_spec. intros H E.
  rewrite E in H. discriminate.
Qed.

Lemma ltb_rank (x y : float) :
  PrimFloat.is_nan x = false -> PrimFloat.is_nan y = false ->
  (PrimFloat.ltb x y = true <-> lex_lt (rank (Prim2SF x)) (rank (Prim2SF y))).
Proof.
  intros Hx Hy. rewrite ltb_spec.
  apply SFltb_rank; now apply Prim2SF_not_nan.
Qed.

Lemma ltb_false_rank (x y : float) :
  PrimFloat.is_nan x = false -> PrimFloat.is_nan y = false ->
  (PrimFloat.ltb x y = false <-> ~ lex_lt (rank (Prim2SF x)) (rank (Prim2SF y))).
Proof.
  intros Hx Hy. rewrite <- (ltb_rank x y Hx Hy).
  destruct (PrimFloat.ltb x y); split; congruence.
Qed.

Lemma ltb_asym (x y : float) :
  PrimFloat.is_nan x = false -> PrimFloat.is_nan y = false ->
  PrimFloat.ltb x y = true -> PrimFloat.ltb y x = false.
Proof.
  intros Hx Hy H. apply ltb_false_rank; auto.
  apply lex_lt_asym. now apply ltb_rank.
Qed.

Lemma ltb_negtrans (x y z : float) :
  PrimFloat.is_nan x = false -> PrimFloat.is_nan y = false ->
  PrimFloat.is_nan z = false ->
  PrimFloat.ltb x y = false -> PrimFloat.ltb y z = false ->
  PrimFloat.ltb x z = false.
Proof.
  intros Hx Hy Hz H1 H2. apply ltb_false_rank; auto.
  apply lex_lt_negtrans with (b := rank (Prim2SF y)); now apply ltb_false_rank.
Qed.

Lemma ltb_trans (x y z : float) :
  PrimFloat.is_nan x = false -> PrimFloat.is_nan y = false ->
  PrimFloat.is_nan z = false ->
  PrimFloat.ltb x y = true -> PrimFloat.ltb y z = true ->
  PrimFloat.ltb x z = true.
Proof.
  intros Hx Hy Hz H1 H2. apply ltb_rank; auto.
  apply lex_lt_trans with (b := rank (Prim2SF y)); now apply ltb_rank.
Qed.

Lemma leb_of_ltb_false (x y : float) :
  PrimFloat.is_nan x = false -> PrimFloat.is_nan y = false ->
  PrimFloat.ltb y x = false -> PrimFloat.leb x y = true.
Proof.
  intros Hx Hy H. rewrite leb_spec.
  apply SFleb_rank; try now apply Prim2SF_not_nan.
  now apply ltb_false_rank.
Qed.

Lemma eqb_false_of_ltb (x y : float) :
  PrimFloat.is_nan x = false -> PrimFloat.is_nan y = false ->
  PrimFloat.ltb x y = true -> PrimFloat.eqb y x = false.
Proof.
  intros Hx Hy H. destruct (PrimFloat.eqb y x) eqn:E; [|reflexivity].
  rewrite eqb_spec in E.
  apply SFeqb_rank in E; try now apply Prim2SF_not_nan.
  apply ltb_rank in H; auto. tauto.
Qed.

Lemma eqb_false_of_gtb (x y : float) :
  PrimFloat.is_nan x = false -> PrimFloat.is_nan y = false ->
  PrimFloat.ltb x y = true -> PrimFloat.eqb x y = false.
Proof.
  intros Hx Hy H. destruct (PrimFloat.eqb x y) eqn:E; [|reflexivity].
  rewrite eqb_spec in E.
  apply SFeqb_rank in E; try now apply Prim2SF_not_nan.
  apply ltb_rank in H; auto. tauto.
Qed.

Lemma ltb_irrefl (x : float) :
  PrimFloat.is_nan x = false -> PrimFloat.ltb x x = false.
Proof.
  intros Hx. destruct (PrimFloat.ltb x x) eqn:E; [|reflexivity].
  now rewrite (ltb_asym x x Hx Hx E) in E.
Qed.
End FloatOrder.

(** ** Facts about [sorted] and [min] *)

Section SortFacts.
Context {A : Type} (key : A -> float).
Local Open Scope list_scope.

Local Notation "x <k y" := (PrimFloat.ltb (key x) (key y)) (at level 70).
Local Notation "'num' x" := (PrimFloat.is_nan (key x) = false) (at level 70).

Lemma insert_stable_In (x y : A) (l : list A) :
  In y (insert_stable key x l) <-> y = x \/ In y l.
Proof.
  induction l as [|z t IH]; cbn.
  - intuition congruence.
  - destruct (z <k x); cbn; rewrite ?IH; intuition congruence.
Qed.

Lemma stable_sort_In (y : A) (l : list A) :
  In y (stable_sort key l) <-> In y l.
Proof.
  induction l as [|x t IH]; cbn; [tauto|].
  rewrite insert_stable_In, IH. intuition congruence.
Qed.

Lemma py_sorted_In (reverse : bool) (y : A) (l : list A) :
  In y (py_sorted key reverse l) <-> In y l.
Proof.
  unfold py_sorted. destruct reverse.
  - rewrite <- in_rev, stable_sort_In, <- in_rev. tauto.
  - apply stable_sort_In.
Qed.

(** *** The sorted list is ordered *)

Lemma insert_stable_ordered (x : A) (l : list A) :
  num x -> (forall y, In y l -> num y) ->
  ordered key l -> ordered key (insert_stable key x l).
Proof.
  intros Hx Hl Ho. induction Ho as [|y t Ht IH Hy]; cbn.
  - repeat constructor.
  - destruct (y <k x) eqn:E.
    + constructor.
      * apply IH. intros; apply Hl; now right.
      * apply Forall_forall. intros z Hz.
        apply insert_stable_In in Hz. destruct Hz as [->|Hz].
        -- apply ltb_asym; auto. apply Hl; now left.
        -- rewrite Forall_forall in Hy. now apply Hy.
    + constructor; [now constructor|].
      constructor; [exact E|].
      apply Forall_forall. intros z Hz.
      rewrite Forall_forall in Hy.
      apply ltb_negtrans with (y := key y); auto.
      * apply Hl; now right.
      * apply Hl; now left.
Qed.

Lemma stable_sort_ordered (l : list A) :
  (forall y, In y l -> num y) -> ordered key (stable_sort key l).
Proof.
  induction l as [|x t IH]; intros Hl.
  - constructor.
  - change (ordered key (insert_stable key x (stable_sort key t))).
    apply insert_stable_ordered.
    + apply Hl; now left.
    + intros y Hy. apply (proj1 (stable_sort_In _ _)) in Hy. apply Hl; now right.
    + apply IH. intros; apply Hl; now right.
Qed.
(** *** Filtering commutes with sorting *)

Lemma filter_insert_stable_drop (p : A -> bool) (x : A) (l : list A) :
  p x = false -> filter p (insert_stable key x l) = filter p l.
Proof.
  intros Hp. induction l as [|y t IH]; cbn.
  - now rewrite Hp.
  - destruct (y <k x); cbn.
    + now rewrite IH.
    + now rewrite Hp.
Qed.

Lemma filter_insert_stable_keep (p : A -> bool) (x : A) (l : list A) :
  p x = true -> num x -> (forall y, In y l -> num y) -> ordered key l ->
  filter p (insert_stable key x l) = insert_stable key x (filter p l).
Proof.
  intros Hp Hx Hl Ho. induction Ho as [|y t Ht IH Hy]; cbn.
  - now rewrite Hp.
  - assert (Hlt : forall z, In z t -> num z) by (intros; apply Hl; now right).
    destruct (y <k x) eqn:E; cbn.
    + destruct (p y); cbn; rewrite ?E, IH; auto.
    + rewrite Hp.
      destruct (p y) eqn:Py; cbn; [now rewrite E|].
      destruct (filter p t) as [|z t'] eqn:Ef; [reflexivity|].
      assert (Hz : In z t).
      { apply (proj1 (filter_In p z t)). rewrite Ef. now left. }
      cbn. rewrite Forall_forall in Hy.
      rewrite (ltb_negtrans (key z) (key y) (key x)); auto.
      apply Hl; now left.
Qed.

Lemma filter_stable_sort (p : A -> bool) (l : list A) :
  (forall y, In y l -> num y) ->
  filter p (stable_sort key l) = stable_sort key (filter p l).
Proof.
  induction l as [|x t IH]; intros Hl; [reflexivity|].
  assert (Ht : forall y, In y t -> num y) by (intros; apply Hl; now right).
  change (stable_sort key (x :: t)) with (insert_stable key x (stable_sort key t)).
  cbn [filter]. destruct (p x) eqn:Px.
  - rewrite filter_insert_stable_keep; auto.
    + now rewrite IH.
    + apply Hl; now left.
    + intros y Hy. apply (proj1 (stable_sort_In _ _)) in Hy. auto.
    + now apply stable_sort_ordered.
  - rewrite filter_insert_stable_drop; auto.
Qed.

Lemma filter_py_sorted (p : A -> bool) (reverse : bool) (l : list A) :
  (forall y, In y l -> num y) ->
  filter p (py_sorted key reverse l) = py_sorted key reverse (filter p l).
Proof.
  intros Hl. unfold py_sorted. destruct reverse.
  - rewrite filter_rev, filter_stable_sort, filter_rev; auto.
    intros y Hy. apply Hl. now apply in_rev.
  - now apply filter_stable_sort.
Qed.

(** *** Which element comes first *)

Lemma last_max_rev (l : list A) (m : A) :
  last_max key (rev l) m -> first_max key l m.
Proof.
  intros (l1 & l2 & E & H1 & H2).
  exists (rev l2), (rev l1). repeat split.
  - rewrite <- (rev_involutive l), E, rev_app_distr. cbn.
    now rewrite <- app_assoc.
  - intros x Hx. apply H2. now apply in_rev.
  - intros x Hx. apply H1. now apply in_rev.
Qed.

Lemma hd_stable_sort (l : list A) :
  (forall y, In y l -> num y) -> l <> [] ->
  exists m s, stable_sort key l = m :: s /\ first_min key l m.
Proof.
  induction l as [|x t IH]; intros Hl Hne; [congruence|].
  assert (Hx : num x) by (apply Hl; now left).
  assert (Ht : forall y, In y t -> num y) by (intros; apply Hl; now right).
  change (stable_sort key (x :: t)) with (insert_stable key x (stable_sort key t)).
  destruct t as [|x' t'].
  - exists x, []. split; [reflexivity|].
    exists [], []. repeat split; intros ? [].
  - destruct IH as (m & s & Es & l1 & l2 & El & H1 & H2); [auto|congruence|].
    assert (Hm : num m) by (apply Ht; rewrite El; apply in_elt).
    rewrite Es. cbn [insert_stable]. destruct (m <k x) eqn:E.
    + exists m, (insert_stable key x s). split; [reflexivity|].
      exists (x :: l1), l2. rewrite El. repeat split; auto.
      intros y [<-|Hy]; auto.
    + exists x, (m :: s). split; [reflexivity|].
      exists [], (x' :: t'). repeat split; [intros ? []|].
      intros y Hy. rewrite El in Hy.
      assert (Hnum : num y) by (apply Ht; now rewrite El).
      apply in_app_or in Hy. destruct Hy as [Hy|[<-|Hy]]; auto.
      * destruct (y <k x) eqn:Eyx; [|reflexivity].
        rewrite (ltb_trans (key m) (key y) (key x)) in E; auto.
      * apply ltb_negtrans with (y := key m); auto.
Qed.

Lemma insert_stable_all_smaller (x : A) (l : list A) :
  (forall y, In y l -> (y <k x) = true) -> insert_stable key x l = l ++ [x].
Proof.
  induction l as [|y t IH]; intros H; cbn; [reflexivity|].
  rewrite (H y) by now left. rewrite IH; auto.
  intros; apply H; now right.
Qed.

Lemma insert_stable_keeps_last (x m : A) (s : list A) :
  (m <k x) = false ->
  exists s', insert_stable key x (s ++ [m]) = s' ++ [m].
Proof.
  intros E. induction s as [|y t [s' IH]]; cbn.
  - rewrite E. now exists [x].
  - destruct (y <k x).
    + exists (y :: s'). now rewrite IH.
    + exists (x :: y :: t). reflexivity.
Qed.

Lemma last_stable_sort (l : list A) :
  (forall y, In y l -> num y) -> l <> [] ->
  exists m s, stable_sort key l = s ++ [m] /\ last_max key l m.
Proof.
  induction l as [|x t IH]; intros Hl Hne; [congruence|].
  assert (Hx : num x) by (apply Hl; now left).
  assert (Ht : forall y, In y t -> num y) by (intros; apply Hl; now right).
  change (stable_sort key (x :: t)) with (insert_stable key x (stable_sort key t)).
  destruct t as [|x' t'].
  - exists x, []. split; [reflexivity|].
    exists [], []. repeat split; intros ? [].
  - destruct IH as (m & s & Es & l1 & l2 & El & H1 & H2); [auto|congruence|].
    assert (Hm : num m) by (apply Ht; rewrite El; apply in_elt).
    destruct (m <k x) eqn:E.
    + exists x, (stable_sort key (x' :: t')). split.
      * apply insert_stable_all_smaller. intros y Hy.
        apply (proj1 (stable_sort_In _ _)) in Hy.
        assert (Hnum : num y) by auto.
        rewrite El in Hy. apply in_app_or in Hy.
        destruct Hy as [Hy|[<-|Hy]]; auto.
        -- destruct (y <k x) eqn:Eyx; [reflexivity|].
           rewrite (ltb_negtrans (key m) (key y) (key x)) in E; auto.
        -- apply ltb_trans with (y := key m); auto.
      * exists [], (x' :: t'). repeat split; [intros ? []|].
        intros y Hy. assert (Hnum : num y) by auto.
        rewrite El in Hy. apply in_app_or in Hy.
        destruct Hy as [Hy|[<-|Hy]]; auto.
        -- destruct (y <k x) eqn:Eyx; [reflexivity|].
           rewrite (ltb_negtrans (key m) (key y) (key x)) in E; auto.
        -- apply ltb_trans with (y := key m); auto.
    + rewrite Es. destruct (insert_stable_keeps_last x m s E) as [s' Es'].
      exists m, s'. split; [exact Es'|].
      exists (x :: l1), l2. rewrite El. repeat split; auto.
      intros y [<-|Hy]; auto.
Qed.

Lemma hd_py_sorted (reverse : bool) (l : list A) :
  (forall y, In y l -> num y) -> l <> [] ->
  exists m s, py_sorted key reverse l = m :: s /\
    if reverse then first_max key l m else first_min key l m.
Proof.
  intros Hl Hne. unfold py_sorted. destruct reverse.
  - destruct (last_stable_sort (rev l)) as (m & s & Es & Hm).
    + intros y Hy. apply Hl. now apply in_rev.
    + intros E. apply Hne. now rewrite <- (rev_involutive l), E.
    + exists m, (rev s). split.
      * now rewrite Es, rev_app_distr.
      * now apply last_max_rev.
  - now apply hd_stable_sort.
Qed.

(** *** [min] *)

Lemma fold_min_first_min (t seen : list A) (best : A) :
  (forall y, In y (seen ++ t) -> num y) ->
  first_min key seen best ->
  first_min key (seen ++ t)
    (fold_left (fun best y => if y <k best then y else best) t best).
Proof.
  revert seen best. induction t as [|y t IH]; intros seen best Hn Hb; cbn.
  - now rewrite app_nil_r.
  - replace (seen ++ y :: t) with ((seen ++ [y]) ++ t)
      by (now rewrite <- app_assoc).
    assert (Hn' : forall z, In z ((seen ++ [y]) ++ t) -> num z).
    { intros z Hz. apply Hn. now rewrite <- app_assoc in Hz. }
    apply IH; auto.
    destruct Hb as (l1 & l2 & El & H1 & H2).
    assert (Hy : num y) by (apply Hn; apply in_elt).
    assert (Hs : forall z, In z seen -> num z).
    { intros z Hz. apply Hn. apply in_or_app. now left. }
    assert (Hbest : num best) by (apply Hs; rewrite El; apply in_elt).
    destruct (y <k best) eqn:E.
    + exists seen, []. repeat split; [|intros ? []].
      intros z Hz. assert (Hzn : num z) by auto.
      rewrite El in Hz. apply in_app_or in Hz.
      destruct Hz as [Hz|[<-|Hz]]; auto.
      * apply ltb_trans with (y := key best); auto.
      * destruct (y <k z) eqn:Eyz; [reflexivity|].
        rewrite (ltb_negtrans (key y) (key z) (key best)) in E; auto.
    + exists l1, (l2 ++ [y]). rewrite El. repeat split; auto.
      * now rewrite <- app_assoc.
      * intros z Hz. apply in_app_or in Hz.
        destruct Hz as [Hz|[<-|[]]]; auto.
Qed.

Lemma py_min_first_min (l : list A) :
  (forall y, In y l -> num y) -> l <> [] ->
  exists m, py_min key l = inr m /\ first_min key l m.
Proof.
  intros Hl Hne. destruct l as [|x t]; [congruence|].
  eexists. split; [reflexivity|].
  apply (fold_min_first_min t [x] x); auto.
  exists [], []. repeat split; intros ? [].
Qed.

(** *** Consequences of being first *)

Lemma first_min_In (l : list A) (m : A) : first_min key l m -> In m l.
Proof. intros (l1 & l2 & -> & _). apply in_elt. Qed.

Lemma first_max_In (l : list A) (m : A) : first_max key l m -> In m l.
Proof. intros (l1 & l2 & -> & _). apply in_elt. Qed.

Lemma first_min_least (l : list A) (m : A) :
  (forall y, In y l -> num y) -> first_min key l m ->
  forall x, In x l -> PrimFloat.leb (key m) (key x) = true.
Proof.
  intros Hl (l1 & l2 & El & H1 & H2) x Hx.
  assert (Hm : num m) by (apply Hl; rewrite El; apply in_elt).
  apply leb_of_ltb_false; auto.
  rewrite El in Hx. apply in_app_or in Hx.
  destruct Hx as [Hx|[<-|Hx]]; auto.
  - apply ltb_asym; auto. apply Hl. rewrite El. apply in_or_app. now left.
  - now apply ltb_irrefl.
Qed.

Lemma first_max_greatest (l : list A) (m : A) :
  (forall y, In y l -> num y) -> first_max key l m ->
  forall x, In x l -> PrimFloat.leb (key x) (key m) = true.
Proof.
  intros Hl (l1 & l2 & El & H1 & H2) x Hx.
  assert (Hm : num m) by (apply Hl; rewrite El; apply in_elt).
  apply leb_of_ltb_false; auto.
  rewrite El in Hx. apply in_app_or in Hx.
  destruct Hx as [Hx|[<-|Hx]]; auto.
  - apply ltb_asym; auto. apply Hl. rewrite El. apply in_or_app. now left.
  - now apply ltb_irrefl.
Qed.

(** No element of equal key precedes the first minimum (maximum). *)
Lemma first_min_ties (l : list A) (m : A) :
  (forall y, In y l -> num y) -> first_min key l m ->
  exists l1 l2, l = l1 ++ m :: l2 /\
    forall x, In x l1 -> PrimFloat.eqb (key x) (key m) = false.
Proof.
  intros Hl (l1 & l2 & El & H1 & H2). exists l1, l2. split; [exact El|].
  intros x Hx. apply eqb_false_of_ltb; auto; apply Hl; rewrite El.
  - apply in_elt.
  - apply in_or_app. now left.
Qed.

Lemma first_max_ties (l : list A) (m : A) :
  (forall y, In y l -> num y) -> first_max key l m ->
  exists l1 l2, l = l1 ++ m :: l2 /\
    forall x, In x l1 -> PrimFloat.eqb (key x) (key m) = false.
Proof.
  intros Hl (l1 & l2 & El & H1 & H2). exists l1, l2. split; [exact El|].
  intros x Hx. apply eqb_false_of_gtb; auto; apply Hl; rewrite El.
  - apply in_or_app. now left.
  - apply in_elt.
Qed.
End SortFacts.

(** ** The selection policy *)

Section Selection.
Local Open Scope list_scope.

Lemma filterM_pure {A} (q : A -> bool) (l : list A) :
  filterM (fun x => ret (q x)) l = ret (filter q l).
Proof.
  induction l as [|x t IH]; cbn; [reflexivity|].
  rewrite IH. cbn. now destruct (q x).
Qed.

Lemma filterM_ext {A} (p p' : A -> M bool) (l : list A) :
  (forall x, p x = p' x) -> filterM p l = filterM p' l.
Proof.
  intros H. induction l as [|x t IH]; cbn; [reflexivity|].
  now rewrite H, IH.
Qed.

Lemma filter_twice {A} (f g : A -> bool) (l : list A) :
  filter g (filter f l) = filter (fun x => f x && g x) l.
Proof.
  induction l as [|x t IH]; cbn; [reflexivity|].
  destruct (f x); cbn; rewrite IH; reflexivity.
Qed.

(** Every token estimate of a non-negative length converts exactly. *)
Lemma small_ints_convert :
  forallb (fun n => match binary_normalize prec emax (Z.of_nat n) 0 false with
                    | S754_infinity _ => false
                    | _ => true
                    end) (seq 0 501) = true.
Proof. vm_compute. reflexivity. Qed.

Lemma int_to_float_estimate (content_length : Z) :
  0 <= content_length ->
  int_to_float (Z.min (content_length * 2) 500)
  = ret (Z2float (Z.min (content_length * 2) 500)).
Proof.
  intros H. set (z := Z.min (content_length * 2) 500).
  assert (Hz : 0 <= z <= 500) by (unfold z; lia).
  pose proof (proj1 (forallb_forall _ _) small_ints_convert (Z.to_nat z)) as Hc.
  cbv beta in Hc. rewrite Z2Nat.id in Hc by lia.
  unfold int_to_float, Z2float.
  destruct (binary_normalize prec emax z 0 false); try reflexivity.
  discriminate Hc. apply in_seq. lia.
Qed.

Lemma within_budget_estimate (content_length : Z) (b : float) (m : ModelConfig) :
  0 <= content_length ->
  within_budget (Z.min (content_length * 2) 500) b m
  = ret (affordable content_length b m).
Proof.
  intros H. unfold within_budget, float_mul_int.
  now rewrite int_to_float_estimate.
Qed.

Lemma apply_budget_filter (content_length : Z) (budget_constraint : option float)
    (l : list ModelConfig) :
  0 <= content_length ->
  apply_budget content_length budget_constraint l
  = ret (filter (passes_budget content_length budget_constraint) l).
Proof.
  intros H. unfold apply_budget, passes_budget.
  destruct budget_constraint as [b|].
  - destruct (float_truthy b).
    + cbv zeta.
      rewrite (filterM_ext _ (fun m => ret (affordable content_length b m))).
      * apply filterM_pure.
      * intros m. now apply within_budget_estimate.
    + f_equal. induction l; cbn; congruence.
  - f_equal. induction l; cbn; congruence.
Qed.

(** Selection, for a length: the head of the eligible part of the sorted
    catalog, or the fallback. *)
Lemma select_optimal_model_eq (self : LLMRouter) (content_length : Z)
    (user_tier : UserTier) (operation : AIOperation)
    (budget_constraint : option float) :
  0 <= content_length ->
  select_optimal_model self content_length user_tier operation budget_constraint
  = match filter (eligible content_length budget_constraint)
                 (sort_for_operation operation (models self user_tier)) with
    | [] => py_min cost_per_token (models self user_tier)
    | m :: _ => ret m
    end.
Proof.
  intros H. unfold select_optimal_model.
  rewrite apply_budget_filter by assumption. cbn [bind ret].
  now rewrite filter_twice.
Qed.

Lemma sort_for_operation_In (operation : AIOperation) (m : ModelConfig)
    (l : list ModelConfig) :
  In m (sort_for_operation operation l) <-> In m l.
Proof. destruct operation; apply py_sorted_In. Qed.

Lemma fold_min_In {A} (key : A -> float) (t : list A) (x : A) :
  In (fold_left (fun best y => if PrimFloat.ltb (key y) (key best) then y else best) t x)
     (x :: t).
Proof.
  revert x. induction t as [|y t IH]; intros x; cbn; [now left|].
  destruct (IH (if PrimFloat.ltb (key y) (key x) then y else x)) as [E|HIn].
  - rewrite <- E. destruct (PrimFloat.ltb (key y) (key x)); auto.
  - auto.
Qed.

Lemma py_min_In {A} (key : A -> float) (l : list A) :
  l <> [] -> exists m, py_min key l = inr m /\ In m l.
Proof.
  destruct l as [|x t]; [congruence|]. intros _.
  eexists. split; [reflexivity|]. apply fold_min_In.
Qed.

Lemma select_optimal_model_In (self : LLMRouter) (content_length : Z)
    (user_tier : UserTier) (operation : AIOperation)
    (budget_constraint : option float) :
  0 <= content_length -> models self user_tier <> [] ->
  exists m,
    select_optimal_model self content_length user_tier operation budget_constraint
    = inr m /\ In m (models self user_tier).
Proof.
  intros H Hne. rewrite select_optimal_model_eq by assumption.
  destruct (filter _ _) as [|m rest] eqn:E.
  - now apply py_min_In.
  - exists m. split; [reflexivity|].
    apply (sort_for_operation_In operation).
    apply (proj1 (filter_In (eligible content_length budget_constraint) m _)).
    rewrite E. now left.
Qed.

Lemma catalog_nonempty (user_tier : UserTier) : _initialize_models user_tier <> [].
Proof. destruct user_tier; discriminate. Qed.

Lemma catalog_costs_are_numbers (user_tier : UserTier) (m : ModelConfig) :
  In m (_initialize_models user_tier) ->
  PrimFloat.is_nan (cost_per_token m) = false.
Proof.
  destruct user_tier; cbn; intros H;
    repeat (destruct H as [<-|H]; [reflexivity|]); destruct H.
Qed.
(** The selected descriptor when some descriptor is eligible: the first
    eligible one, in catalog order, with the extreme cost. *)
Lemma select_optimal_model_first (self : LLMRouter) (content_length : Z)
    (user_tier : UserTier) (operation : AIOperation)
    (budget_constraint : option float) :
  0 <= content_length ->
  (forall m, In m (models self user_tier) ->
             PrimFloat.is_nan (cost_per_token m) = false) ->
  filter (eligible content_length budget_constraint) (models self user_tier) <> [] ->
  exists m,
    select_optimal_model self content_length user_tier operation budget_constraint
    = inr m /\
    match operation with
    | CATEGORIZE | GENERATE_TAGS =>
        first_min cost_per_token
          (filter (eligible content_length budget_constraint) (models self user_tier)) m
    | EXTRACT_INSIGHTS | SUMMARIZE =>
        first_max cost_per_token
          (filter (eligible content_length budget_constraint) (models self user_tier)) m
    end.
Proof.
  intros H Hnum Hne. rewrite select_optimal_model_eq by assumption.
  set (c := filter (eligible content_length budget_constraint) (models self user_tier)) in *.
  assert (Hc : forall y, In y c -> PrimFloat.is_nan (cost_per_token y) = false).
  { intros y Hy. apply Hnum. unfold c in Hy. now apply filter_In in Hy. }
  destruct operation; unfold sort_for_operation;
    rewrite filter_py_sorted by assumption; fold c;
    match goal with
    | |- context [py_sorted _ ?r c] =>
        destruct (hd_py_sorted cost_per_token r c Hc Hne) as (m & rest & -> & Hm)
    end;
    exists m; split; auto.
Qed.

(** C7. Selection is total on the shipped catalog: for every content length
    (a length, so non-negative), tier, operation and optional budget,
    [select_optimal_model] returns a descriptor, never an exception, and the
    descriptor is a member of the tier's catalog list. *)
Theorem select_optimal_model_total (key : string) (sess : option ClientSession)
    (content_length : Z) (user_tier : UserTier) (operation : AIOperation)
    (budget_constraint : option float) :
  0 <= content_length ->
  exists m,
    select_optimal_model (router key sess) content_length user_tier operation
                         budget_constraint = inr m /\
    In m (_initialize_models user_tier).
Proof.
  intros H.
  apply (select_optimal_model_In (router key sess)); [assumption|].
  apply catalog_nonempty.
Qed.

Lemma select_optimal_model_total_witness :
  0 <= 5000 /\
  exists m,
    select_optimal_model (router "sk" None) 5000 PREMIUM SUMMARIZE
                         (Some 0.000001%float) = inr m /\
    In m (_initialize_models PREMIUM).
Proof.
  split; [lia|].
  apply (select_optimal_model_total "sk" None 5000 PREMIUM SUMMARIZE
           (Some 0.000001%float)).
  lia.
Defined.

(** C9. A budget equal to zero is treated as no budget: the guard tests the
    budget's truth value, so the budget comprehension is skipped, no
    descriptor is dropped, and selection returns what it returns without a
    budget. *)
Theorem zero_budget_is_no_budget (self : LLMRouter) (content_length : Z)
    (user_tier : UserTier) (operation : AIOperation) (b : float)
    (l : list ModelConfig) :
  PrimFloat.eqb b 0%float = true ->
  apply_budget content_length (Some b) l = ret l /\
  select_optimal_model self content_length user_tier operation (Some b)
  = select_optimal_model self content_length user_tier operation None.
Proof.
  intros Hb.
  assert (E : forall l', apply_budget content_length (Some b) l' = ret l').
  { intros l'. unfold apply_budget, float_truthy. now rewrite Hb. }
  split; [apply E|].
  unfold select_optimal_model. now rewrite E.
Qed.

Lemma zero_budget_is_no_budget_witness :
  PrimFloat.eqb 0%float 0%float = true /\
  apply_budget 40 (Some 0%float) (_initialize_models PRO)
  = ret (_initialize_models PRO) /\
  select_optimal_model (router "sk" None) 40 PRO EXTRACT_INSIGHTS (Some 0%float)
  = select_optimal_model (router "sk" None) 40 PRO EXTRACT_INSIGHTS None.
Proof.
  split; [reflexivity|].
  apply (zero_budget_is_no_budget (router "sk" None) 40 PRO EXTRACT_INSIGHTS
           0%float (_initialize_models PRO)).
  reflexivity.
Defined.

(** C1, defect of the code.  The claim, and the code's own comment
    "Apply budget constraint if specified", say that a supplied budget no
    descriptor can meet sends selection to the tier's cheapest descriptor.
    For the supplied budget 0.0 the code does not: on the Free tier, for a
    Summarize request of length 10, no descriptor is affordable, yet the
    truth-value guard skips the budget comprehension and selection returns
    gpt-3.5-turbo, whose cost is above that of claude-3-haiku in the same
    list. *)
Lemma fallback_counterexample_zero_budget :
  (forall m, In m (_initialize_models FREE) -> affordable 10 0%float m = false) /\
  select_optimal_model (router "sk" None) 10 FREE SUMMARIZE (Some 0%float)
  = inr gpt_3_5_turbo /\
  In claude_3_haiku (_initialize_models FREE) /\
  PrimFloat.leb (cost_per_token gpt_3_5_turbo) (cost_per_token claude_3_haiku)
  = false.
Proof.
  split; [|split; [reflexivity|split; [now left|reflexivity]]].
  intros m [<-|[<-|[]]]; reflexivity.
Qed.

(** What the code does for every other supplied budget, the sibling path
    of the defect above: for every tier, operation and non-negative length,
    if the supplied budget is one the guard lets through (not zero) and no
    descriptor of the tier's list satisfies
    [costPerToken * min(contentLength * 2, 500) <= budget], then
    [select_optimal_model] returns, without raising, a descriptor of the
    tier's full list whose cost is the minimum of that list. *)
Theorem fallback_is_cheapest (key : string) (sess : option ClientSession)
    (content_length : Z) (user_tier : UserTier) (operation : AIOperation)
    (b : float) :
  0 <= content_length ->
  float_truthy b = true ->
  (forall m, In m (_initialize_models user_tier) ->
             affordable content_length b m = false) ->
  exists m,
    select_optimal_model (router key sess) content_length user_tier operation
                         (Some b) = inr m /\
    In m (_initialize_models user_tier) /\
    forall m', In m' (_initialize_models user_tier) ->
               PrimFloat.leb (cost_per_token m) (cost_per_token m') = true.
Proof.
  intros H Hb Hnone. rewrite select_optimal_model_eq by assumption.
  cbn [models router].
  assert (E : filter (eligible content_length (Some b))
                (sort_for_operation operation (_initialize_models user_tier)) = []).
  { destruct (filter _ _) as [|m rest] eqn:Ef; [reflexivity|].
    assert (Hm : In m (m :: rest)) by now left.
    rewrite <- Ef in Hm. apply filter_In in Hm. destruct Hm as [Hin He].
    apply sort_for_operation_In in Hin.
    unfold eligible, passes_budget in He.
    rewrite Hb, (Hnone m Hin) in He. discriminate. }
  rewrite E.
  destruct (py_min_first_min cost_per_token (_initialize_models user_tier))
    as (m & Em & Hm).
  - apply catalog_costs_are_numbers.
  - apply catalog_nonempty.
  - exists m. split; [exact Em|]. split.
    + now apply first_min_In in Hm.
    + apply first_min_least; [apply catalog_costs_are_numbers|exact Hm].
Qed.

Lemma fallback_is_cheapest_witness :
  0 <= 10 /\
  float_truthy 0.000001%float = true /\
  (forall m, In m (_initialize_models PRO) ->
             affordable 10 0.000001%float m = false) /\
  exists m,
    select_optimal_model (router "sk" None) 10 PRO SUMMARIZE
                         (Some 0.000001%float) = inr m /\
    In m (_initialize_models PRO) /\
    forall m', In m' (_initialize_models PRO) ->
               PrimFloat.leb (cost_per_token m) (cost_per_token m') = true.
Proof.
  assert (Hnone : forall m, In m (_initialize_models PRO) ->
                            affordable 10 0.000001%float m = false).
  { intros m [<-|[<-|[<-|[]]]]; reflexivity. }
  split; [lia|]. split; [reflexivity|]. split; [exact Hnone|].
  apply (fallback_is_cheapest "sk" None 10 PRO SUMMARIZE 0.000001%float);
    [lia|reflexivity|exact Hnone].
Defined.

(** C2. When the post-filter candidate set is not empty, the selected
    descriptor belongs to it; for Categorize and GenerateTags its cost is at
    most that of every candidate, for ExtractInsights and Summarize at
    least; and ties are broken by catalog order: no candidate of equal cost
    precedes it in the catalog.  This holds for any catalog whose costs are
    numbers, the shipped one included ([catalog_costs_are_numbers]). *)
Theorem selection_prefers_by_cost (self : LLMRouter) (content_length : Z)
    (user_tier : UserTier) (operation : AIOperation)
    (budget_constraint : option float) :
  0 <= content_length ->
  (forall m, In m (models self user_tier) ->
             PrimFloat.is_nan (cost_per_token m) = false) ->
  filter (eligible content_length budget_constraint) (models self user_tier) <> [] ->
  exists m,
    select_optimal_model self content_length user_tier operation budget_constraint
    = inr m /\
    In m (filter (eligible content_length budget_constraint) (models self user_tier)) /\
    (operation = CATEGORIZE \/ operation = GENERATE_TAGS ->
     forall m',
       In m' (filter (eligible content_length budget_constraint)
                     (models self user_tier)) ->
       PrimFloat.leb (cost_per_token m) (cost_per_token m') = true) /\
    (operation = EXTRACT_INSIGHTS \/ operation = SUMMARIZE ->
     forall m',
       In m' (filter (eligible content_length budget_constraint)
                     (models self user_tier)) ->
       PrimFloat.leb (cost_per_token m') (cost_per_token m) = true) /\
    exists before after,
      filter (eligible content_length budget_constraint) (models self user_tier)
      = before ++ m :: after /\
      forall m', In m' before ->
                 PrimFloat.eqb (cost_per_token m') (cost_per_token m) = false.
Proof.
  intros H Hnum Hne.
  destruct (select_optimal_model_first self content_length user_tier operation
              budget_constraint H Hnum Hne) as (m & Em & Hm).
  set (c := filter (eligible content_length budget_constraint) (models self user_tier)) in *.
  assert (Hc : forall y, In y c -> PrimFloat.is_nan (cost_per_token y) = false).
  { intros y Hy. apply Hnum. unfold c in Hy. now apply filter_In in Hy. }
  exists m. split; [exact Em|].
  destruct operation.
  - split; [now apply first_min_In in Hm|]. split; [|split].
    + intros _. now apply first_min_least.
    + intros [E|E]; discriminate E.
    + now apply first_min_ties.
  - split; [now apply first_max_In in Hm|]. split; [|split].
    + intros [E|E]; discriminate E.
    + intros _. now apply first_max_greatest.
    + now apply first_max_ties.
  - split; [now apply first_max_In in Hm|]. split; [|split].
    + intros [E|E]; discriminate E.
    + intros _. now apply first_max_greatest.
    + now apply first_max_ties.
  - split; [now apply first_min_In in Hm|]. split; [|split].
    + intros _. now apply first_min_least.
    + intros [E|E]; discriminate E.
    + now apply first_min_ties.
Qed.

Lemma selection_prefers_by_cost_witness :
  0 <= 10 /\
  (forall m, In m (models tied_router FREE) ->
             PrimFloat.is_nan (cost_per_token m) = false) /\
  filter (eligible 10 None) (models tied_router FREE) <> [] /\
  exists m,
    select_optimal_model tied_router 10 FREE SUMMARIZE None = inr m /\
    In m (filter (eligible 10 None) (models tied_router FREE)) /\
    (SUMMARIZE = CATEGORIZE \/ SUMMARIZE = GENERATE_TAGS ->
     forall m', In m' (filter (eligible 10 None) (models tied_router FREE)) ->
       PrimFloat.leb (cost_per_token m) (cost_per_token m') = true) /\
    (SUMMARIZE = EXTRACT_INSIGHTS \/ SUMMARIZE = SUMMARIZE ->
     forall m', In m' (filter (eligible 10 None) (models tied_router FREE)) ->
       PrimFloat.leb (cost_per_token m') (cost_per_token m) = true) /\
    exists before after,
      filter (eligible 10 None) (models tied_router FREE) = before ++ m :: after /\
      forall m', In m' before ->
                 PrimFloat.eqb (cost_per_token m') (cost_per_token m) = false.
Proof.
  assert (Hnum : forall m, In m (models tied_router FREE) ->
                           PrimFloat.is_nan (cost_per_token m) = false).
  { intros m [<-|[<-|[<-|[<-|[]]]]]; reflexivity. }
  split; [lia|]. split; [exact Hnum|]. split; [discriminate|].
  apply (selection_prefers_by_cost tied_router 10 FREE SUMMARIZE None);
    [lia|exact Hnum|discriminate].
Defined.

(** On tied costs the earlier descriptor wins, in both directions. *)
Example tie_break_ascending :
  option_map name
    (match select_optimal_model tied_router 10 FREE CATEGORIZE None with
     | inr m => Some m
     | inl _ => None
     end) = Some "b".
Proof. reflexivity. Qed.

Example tie_break_descending :
  option_map name
    (match select_optimal_model tied_router 10 FREE SUMMARIZE None with
     | inr m => Some m
     | inl _ => None
     end) = Some "a".
Proof. reflexivity. Qed.

(** The same on the shipped catalog, where the hypothesis on costs holds. *)
Corollary shipped_selection_first (key : string) (sess : option ClientSession)
    (content_length : Z) (user_tier : UserTier) (operation : AIOperation)
    (budget_constraint : option float) :
  0 <= content_length ->
  filter (eligible content_length budget_constraint)
         (_initialize_models user_tier) <> [] ->
  exists m,
    select_optimal_model (router key sess) content_length user_tier operation
                         budget_constraint = inr m /\
    match operation with
    | CATEGORIZE | GENERATE_TAGS =>
        first_min cost_per_token
          (filter (eligible content_length budget_constraint)
                  (_initialize_models user_tier)) m
    | EXTRACT_INSIGHTS | SUMMARIZE =>
        first_max cost_per_token
          (filter (eligible content_length budget_constraint)
                  (_initialize_models user_tier)) m
    end.
Proof.
  intros H Hne.
  apply (select_optimal_model_first (router key sess)); auto.
  apply catalog_costs_are_numbers.
Qed.
End Selection.

(** ** Single-item dispatch *)

Section DispatchFacts.
Variable json_loads : string -> M pyval.
Local Open Scope list_scope.

Lemma select_ensure_session (self : LLMRouter) (content_length : Z)
    (user_tier : UserTier) (operation : AIOperation)
    (budget_constraint : option float) :
  select_optimal_model (ensure_session self) content_length user_tier operation
                       budget_constraint
  = select_optimal_model self content_length user_tier operation budget_constraint.
Proof. unfold ensure_session. now destruct (session self). Qed.

Lemma process_content_eq (self : LLMRouter) (content : string)
    (operation : AIOperation) (user_tier : UserTier)
    (budget_constraint : option float) (net : network) (model : ModelConfig) :
  select_optimal_model self (Z.of_nat (String.length content)) user_tier operation
                       budget_constraint = inr model ->
  snd (process_content json_loads self content operation user_tier
                       budget_constraint net)
  = match dispatch json_loads model operation
            (exchange net (api_key self) model content operation) with
    | inl e => failed e (Some (name model))
    | inr r => r
    end.
Proof.
  intros E. unfold process_content. cbn [snd].
  rewrite select_ensure_session, E. unfold exchange, ensure_session.
  now destruct (session self).
Qed.

Lemma process_content_models (self : LLMRouter) (content : string)
    (operation : AIOperation) (user_tier : UserTier)
    (budget_constraint : option float) (net : network) :
  models (fst (process_content json_loads self content operation user_tier
                               budget_constraint net)) = models self.
Proof. unfold process_content, ensure_session. cbn. now destruct (session self). Qed.

(** The response handler on a body whose first choice carries a content. *)
Lemma handle_response_content (model : ModelConfig) (operation : AIOperation)
    (text : M string) (d : list (string * pyval)) (v : pyval) :
  first_choice_content d v ->
  handle_response json_loads model operation 200 text (inr (PDict d))
  = (usage <- py_get (PDict d) "usage" (PDict []) ;;
     tokens_used <- py_get usage "total_tokens" (PInt 0) ;;
     cost <- py_mul_float tokens_used (cost_per_token model) ;;
     result <- parse_result json_loads operation v ;;
     ret (mkProcessingResult true (Some result) None (Some (name model))
            (Some tokens_used) (Some cost))).
Proof.
  intros (choice & rest & message & Hc & Hm & Hv).
  unfold handle_response. cbn. rewrite Hc. cbn. rewrite Hm. cbn. rewrite Hv.
  reflexivity.
Qed.

Lemma handle_response_counted (model : ModelConfig) (operation : AIOperation)
    (text : M string) (d : list (string * pyval)) (v tokens : pyval) :
  first_choice_content d v ->
  token_count d = Some tokens ->
  handle_response json_loads model operation 200 text (inr (PDict d))
  = (cost <- py_mul_float tokens (cost_per_token model) ;;
     result <- parse_result json_loads operation v ;;
     ret (mkProcessingResult true (Some result) None (Some (name model))
            (Some tokens) (Some cost))).
Proof.
  intros Hv Ht. rewrite (handle_response_content model operation text d v Hv).
  unfold token_count in Ht. cbn.
  destruct (dict_lookup "usage" d) as [usage|]; cbn.
  - destruct usage as [| | | | | |u]; try discriminate Ht. cbn.
    destruct (dict_lookup "total_tokens" u); injection Ht as <-; reflexivity.
  - injection Ht as <-. reflexivity.
Qed.

Lemma lacks_total_tokens_count (d : list (string * pyval)) :
  lacks_total_tokens d -> token_count d = Some (PInt 0).
Proof.
  unfold token_count. intros [E|(u & E & Eu)]; rewrite E; [reflexivity|].
  now rewrite Eu.
Qed.

Lemma zero_tokens_cost_nothing (user_tier : UserTier) (m : ModelConfig) :
  In m (_initialize_models user_tier) ->
  py_mul_float (PInt 0) (cost_per_token m) = ret 0%float.
Proof.
  destruct user_tier; cbn; intros H;
    repeat (destruct H as [<-|H]; [reflexivity|]); destruct H.
Qed.
Lemma parse_result_degrades (operation : AIOperation) (t : string) (e : exn) :
  structured operation = true ->
  json_loads t = inl e -> is_JSONDecodeError e = true ->
  parse_result json_loads operation (PStr t) = ret (PDict [("text", PStr t)]).
Proof.
  intros Hs He Hd. unfold parse_result. rewrite Hs. cbn. now rewrite He, Hd.
Qed.

Lemma shipped_selection (key : string) (sess : option ClientSession)
    (content : string) (user_tier : UserTier) (operation : AIOperation)
    (budget_constraint : option float) :
  exists model,
    select_optimal_model (router key sess) (Z.of_nat (String.length content))
                         user_tier operation budget_constraint = inr model /\
    In model (_initialize_models user_tier).
Proof. apply select_optimal_model_total. lia. Qed.

(** C4, as stated, fails on the error message: an exception whose [str] is
    empty (a timeout, say) yields a failed result with an empty message. *)
Lemma failure_counterexample_empty_message :
  let r := snd (process_content reject_all (router "sk" None) "hello" CATEGORIZE
                  FREE None
                  (fun _ _ _ => PostRaises (Exn (OtherException "TimeoutError") ""))) in
  success r = false /\ error r = Some "".
Proof. split; reflexivity. Qed.

(** C4, amended. Whatever the network does, [process_content] returns a
    [ProcessingResult] (it is a total function: nothing is raised past it)
    and, with [model] the selected descriptor and [out] the outcome of the
    request:
    - on a status other than 200 the result is a failure naming the model,
      whose message quotes the status and the body text, or is the [str] of
      the exception raised while reading that text;
    - on status 200 with a body object whose [choices] is missing or an
      empty list, the result is a failure naming the model, with message
      ["No response from model"];
    - when the request or the handling of the response raises [e], the
      result is a failure naming the model, with message [str(e)], which
      may be empty. *)
Theorem process_content_failure_contract (key : string)
    (sess : option ClientSession) (content : string) (operation : AIOperation)
    (user_tier : UserTier) (budget_constraint : option float) (net : network) :
  exists model,
    select_optimal_model (router key sess) (Z.of_nat (String.length content))
                         user_tier operation budget_constraint = inr model /\
    let r := snd (process_content json_loads (router key sess) content operation
                    user_tier budget_constraint net) in
    let out := exchange net key model content operation in
    (forall status text json,
        out = PostResponse status text json -> status <> 200 ->
        success r = false /\ model_used r = Some (name model) /\
        error r = Some match text with
                       | inr error_text =>
                           "API request failed with status " ++ str_of_int status
                           ++ ": " ++ error_text
                       | inl e => exn_str e
                       end%string) /\
    (forall text d,
        out = PostResponse 200 text (inr (PDict d)) ->
        dict_lookup "choices" d = None \/
        dict_lookup "choices" d = Some (PList []) ->
        success r = false /\ model_used r = Some (name model) /\
        error r = Some "No response from model") /\
    (forall e,
        out = PostRaises e \/
        (exists text, out = PostResponse 200 text (inl e)) \/
        dispatch json_loads model operation out = inl e ->
        success r = false /\ model_used r = Some (name model) /\
        error r = Some (exn_str e)).
Proof.
  destruct (shipped_selection key sess content user_tier operation
              budget_constraint) as (model & Em & _).
  exists model. split; [exact Em|]. cbv zeta.
  rewrite (process_content_eq _ _ _ _ _ _ model Em). cbn [api_key router].
  set (out := exchange net key model content operation).
  split; [|split].
  - intros status text json -> Hs. cbn. unfold handle_response.
    destruct (Z.eqb_spec status 200) as [|_]; [contradiction|]. cbn.
    destruct text as [e|error_text]; cbn; auto.
  - intros text d -> Hd. cbn.
    destruct Hd as [Hd|Hd]; rewrite Hd; cbn; auto.
  - intros e [->|[[text ->]|He]]; cbn; auto.
    rewrite He. cbn. auto.
Qed.

(** C5, as stated, fails when the usage entry is malformed: with
    ["usage": null] next to a text that is not JSON, the call is reported
    as failed. *)
Lemma degrade_counterexample_null_usage :
  let r := snd (process_content reject_all (router "sk" None) "hello" CATEGORIZE
                  FREE None
                  (fun _ _ _ =>
                     PostResponse 200 (ret "")
                       (ret (body_with (PStr "not json") [("usage", PNone)])))) in
  first_choice_content
    (("choices", PList [PDict [("message", PDict [("content", PStr "not json")])]])
     :: [("usage", PNone)]) (PStr "not json") /\
  reject_all "not json"
  = inl (Exn JSONDecodeError "Expecting value: line 1 column 1 (char 0)") /\
  success r = false /\
  error r = Some "'NoneType' object has no attribute 'get'".
Proof.
  split; [|repeat split; reflexivity].
  eexists _, _, _. repeat split; reflexivity.
Qed.

(** C5, amended. For a structured operation (Categorize, ExtractInsights,
    GenerateTags), if the response to the request has status 200, its body
    is an object whose [choices] is a non-empty list whose first choice
    carries the text, [json.loads] rejects that text with
    [JSONDecodeError], and the usage entry is absent or an object whose
    token count the cost product accepts, then [process_content] returns
    success with the payload [{"text": raw text}]. *)
Theorem parse_failure_degrades (self : LLMRouter) (content : string)
    (operation : AIOperation) (user_tier : UserTier)
    (budget_constraint : option float) (net : network) (model : ModelConfig)
    (text : M string) (d : list (string * pyval)) (t : string) (e : exn)
    (tokens : pyval) (c : float) :
  structured operation = true ->
  select_optimal_model self (Z.of_nat (String.length content)) user_tier
                       operation budget_constraint = inr model ->
  exchange net (api_key self) model content operation
  = PostResponse 200 text (inr (PDict d)) ->
  first_choice_content d (PStr t) ->
  json_loads t = inl e -> is_JSONDecodeError e = true ->
  token_count d = Some tokens ->
  py_mul_float tokens (cost_per_token model) = inr c ->
  snd (process_content json_loads self content operation user_tier
         budget_constraint net)
  = mkProcessingResult true (Some (PDict [("text", PStr t)])) None
      (Some (name model)) (Some tokens) (Some c).
Proof.
  intros Hs Em Hout Hv He Hd Ht Hc.
  rewrite (process_content_eq _ _ _ _ _ _ model Em), Hout. cbn [dispatch].
  rewrite (handle_response_counted model operation text d (PStr t) tokens Hv Ht).
  rewrite Hc. cbn [bind].
  rewrite (parse_result_degrades operation t e Hs He Hd). reflexivity.
Qed.

(** A successful result carries the product it was billed with. *)
Lemma handle_response_cost (model : ModelConfig) (operation : AIOperation)
    (status : Z) (text : M string) (json : M pyval) (r : ProcessingResult) :
  handle_response json_loads model operation status text json = inr r ->
  success r = true ->
  exists tokens c,
    tokens_used r = Some tokens /\ cost r = Some c /\
    py_mul_float tokens (cost_per_token model) = inr c.
Proof.
  unfold handle_response.
  destruct (negb (status =? 200)%Z).
  - destruct text; cbn; [discriminate|]. intros [= <-]. discriminate.
  - repeat first
      [ progress cbn [bind]
      | match goal with
        | |- inl _ = inr _ -> _ => discriminate
        | |- ret _ = inr _ -> _ =>
            unfold ret; intros [= <-]; cbn; try discriminate
        | |- bind ?m _ = _ -> _ => let E := fresh "E" in destruct m eqn:E
        | |- (if ?b then _ else _) = _ -> _ => destruct b
        end ].
    intros _. eexists _, _. repeat split. eassumption.
Qed.

(** C10, as stated, fails when the text cannot be handed to the decoder: a
    status-200 body with one choice and no usage entry, whose content is
    [null], makes a structured operation fail. *)
Lemma usage_counterexample_null_content :
  let r := snd (process_content reject_all (router "sk" None) "hello" CATEGORIZE
                  FREE None
                  (fun _ _ _ => PostResponse 200 (ret "") (ret (body_with PNone [])))) in
  lacks_total_tokens
    [("choices", PList [PDict [("message", PDict [("content", PNone)])]])] /\
  success r = false /\ tokens_used r = None /\ cost r = None.
Proof. split; [now left|]. repeat split; reflexivity. Qed.

(** C10, amended. With [model] the selected descriptor: if the response to
    the request has status 200, its body is an object whose [choices] is a
    non-empty list whose first choice carries a content that the
    operation's decoding step turns into a payload, and the body has no
    [usage.total_tokens] (no [usage] entry, or a [usage] object without
    [total_tokens]), then [process_content] returns success with
    [tokens_used = 0] and [cost = 0.0]; and whenever [process_content]
    returns success, its cost is the product of its token count and the
    descriptor's cost per token. *)
Theorem missing_usage_defaults (key : string) (sess : option ClientSession)
    (content : string) (operation : AIOperation) (user_tier : UserTier)
    (budget_constraint : option float) (net : network) :
  exists model,
    select_optimal_model (router key sess) (Z.of_nat (String.length content))
                         user_tier operation budget_constraint = inr model /\
    let r := snd (process_content json_loads (router key sess) content operation
                    user_tier budget_constraint net) in
    (forall text d v payload,
        exchange net key model content operation
        = PostResponse 200 text (inr (PDict d)) ->
        first_choice_content d v ->
        lacks_total_tokens d ->
        parse_result json_loads operation v = inr payload ->
        r = mkProcessingResult true (Some payload) None (Some (name model))
              (Some (PInt 0)) (Some 0%float)) /\
    (success r = true ->
     exists tokens c,
       tokens_used r = Some tokens /\ cost r = Some c /\
       py_mul_float tokens (cost_per_token model) = inr c).
Proof.
  destruct (shipped_selection key sess content user_tier operation
              budget_constraint) as (model & Em & Hin).
  exists model. split; [exact Em|]. cbv zeta.
  rewrite (process_content_eq _ _ _ _ _ _ model Em). cbn [api_key router].
  split.
  - intros text d v payload Hout Hv Hu Hp. rewrite Hout. cbn [dispatch].
    rewrite (handle_response_counted model operation text d v (PInt 0) Hv
               (lacks_total_tokens_count d Hu)).
    rewrite (zero_tokens_cost_nothing user_tier model Hin). cbn [bind ret].
    rewrite Hp. reflexivity.
  - destruct (exchange net key model content operation)
      as [e|status text json]; cbn [dispatch]; [discriminate|].
    destruct (handle_response json_loads model operation status text json)
      as [e|r] eqn:E; [discriminate|].
    now apply handle_response_cost with (1 := E).
Qed.

(** When the decoding step yields a payload. *)
Lemma parse_result_defined (operation : AIOperation) (v : pyval) :
  (structured operation = false ->
   parse_result json_loads operation v = ret (PDict [("text", v)])) /\
  (forall t payload, v = PStr t -> json_loads t = inr payload ->
   structured operation = true ->
   parse_result json_loads operation v = ret payload).
Proof.
  unfold parse_result. split.
  - now intros ->.
  - intros t payload -> E ->. cbn. now rewrite E.
Qed.
End DispatchFacts.

(** ** Batch dispatch *)

Section BatchFacts.
Local Open Scope list_scope.
Local Open Scope nat_scope.

Lemma firstn_plus {A} (a b : nat) (l : list A) :
  firstn (a + b) l = firstn a l ++ firstn b (skipn a l).
Proof.
  revert l. induction a as [|a IH]; intros l; [reflexivity|].
  destruct l as [|x t]; cbn.
  - now rewrite firstn_nil.
  - now rewrite IH.
Qed.

Lemma chunk_count_lt (len batch_size n : nat) :
  0 < batch_size ->
  (n < chunk_count len batch_size <-> n * batch_size < len).
Proof.
  intros Hb. unfold chunk_count.
  destruct (Nat.eqb_spec len 0) as [->|Hlen]; [lia|].
  pose proof (Nat.div_mod_eq (len - 1) batch_size) as Hd.
  pose proof (Nat.mod_upper_bound (len - 1) batch_size) as Hm.
  split; intros H; nia.
Qed.

Lemma schedule_snoc (cs : list (list string)) (c : list string) :
  schedule (cs ++ [c])
  = schedule cs ++ (match cs with [] => [] | _ :: _ => [Sleep 2%Z] end)
    ++ [Dispatch c].
Proof.
  induction cs as [|c0 rest IH]; [reflexivity|].
  destruct rest as [|c1 rest]; [reflexivity|].
  change (schedule ((c0 :: c1 :: rest) ++ [c]))
    with (Dispatch c0 :: Sleep 2%Z :: schedule ((c1 :: rest) ++ [c])).
  rewrite IH. reflexivity.
Qed.

Section Loop.
Variable run : LLMRouter -> nat -> string -> LLMRouter * (exn + ProcessingResult).

Lemma gather_app (self : LLMRouter) (k : nat) (l1 l2 : list string) :
  gather run self k (l1 ++ l2)
  = (fst (gather run (fst (gather run self k l1)) (k + List.length l1) l2),
     snd (gather run self k l1)
     ++ snd (gather run (fst (gather run self k l1)) (k + List.length l1) l2)).
Proof.
  revert self k. induction l1 as [|x t IH]; intros self k; cbn.
  - rewrite Nat.add_0_r. now destruct (gather run self k l2).
  - destruct (run self k x) as [s r]. rewrite IH.
    destruct (gather run s (S k) t) as [s1 r1]. cbn.
    now rewrite Nat.add_succ_r.
Qed.

Lemma gather_length (self : LLMRouter) (k : nat) (l : list string) :
  List.length (snd (gather run self k l)) = List.length l.
Proof.
  revert self k. induction l as [|x t IH]; intros self k; cbn; [reflexivity|].
  destruct (run self k x) as [s r]. specialize (IH s (S k)).
  destruct (gather run s (S k) t). cbn in *. now rewrite IH.
Qed.

(** Every outcome is the outcome of the task of its own item, run in a
    router state reached from the initial one. *)
Lemma gather_nth (Inv : LLMRouter -> Prop) :
  (forall s k c, Inv s -> Inv (fst (run s k c))) ->
  forall (l : list string) (self : LLMRouter) (k i : nat) (c : string),
    Inv self -> nth_error l i = Some c ->
    exists s, Inv s /\
      nth_error (snd (gather run self k l)) i = Some (snd (run s (k + i) c)).
Proof.
  intros Hrun. induction l as [|x t IH]; intros self k i c Hs Hi.
  - destruct i; discriminate.
  - cbn. pose proof (Hrun self k x Hs) as Hs'.
    destruct (run self k x) as [s r] eqn:E. cbn in Hs'.
    destruct i as [|i]; cbn in Hi.
    + injection Hi as ->. exists self. split; [exact Hs|].
      destruct (gather run s (S k) t). cbn. now rewrite Nat.add_0_r, E.
    + destruct (IH s (S k) i c Hs' Hi) as (s' & Hs'' & Hn).
      exists s'. split; [exact Hs''|].
      destruct (gather run s (S k) t). cbn in *.
      now rewrite Nat.add_succ_r.
Qed.

Lemma gather_invariant (Inv : LLMRouter -> Prop) :
  (forall s k c, Inv s -> Inv (fst (run s k c))) ->
  forall (l : list string) (self : LLMRouter) (k : nat),
    Inv self -> Inv (fst (gather run self k l)).
Proof.
  intros Hrun. induction l as [|x t IH]; intros self k Hs; cbn; [exact Hs|].
  pose proof (Hrun self k x Hs) as Hs'.
  destruct (run self k x) as [s r]. cbn in Hs'.
  specialize (IH s (S k) Hs'). now destruct (gather run s (S k) t).
Qed.

(** The state of the loop after its first [n] iterations. *)
Lemma batch_loop_prefix (self : LLMRouter) (contents : list string)
    (batch_size n : nat) :
  0 < batch_size ->
  n <= chunk_count (List.length contents) batch_size ->
  fold_left (batch_step run contents batch_size)
            (map (fun k => k * batch_size) (seq 0 n))
            (mkBatchState self [] [])
  = mkBatchState
      (fst (gather run self 0 (firstn (n * batch_size) contents)))
      (map collect (snd (gather run self 0 (firstn (n * batch_size) contents))))
      (schedule (map (chunk_at batch_size contents) (seq 0 n))
       ++ if (0 <? n) && (n <? chunk_count (List.length contents) batch_size)
          then [Sleep 2%Z] else []).
Proof.
  intros Hb. induction n as [|n IH]; intros Hn; [reflexivity|].
  rewrite seq_S, !map_app, fold_left_app, IH by lia. cbn [map fold_left Nat.add].
  assert (Hlt : n * batch_size < List.length contents)
    by (apply chunk_count_lt; [assumption|lia]).
  unfold batch_step. cbn [bs_self bs_results bs_trace].
  unfold py_slice.
  replace (n * batch_size + batch_size - n * batch_size) with batch_size by lia.
  fold (chunk_at batch_size contents n).
  replace (S n * batch_size) with (n * batch_size + batch_size) by lia.
  rewrite firstn_plus. fold (chunk_at batch_size contents n).
  rewrite gather_app. cbn [Nat.add].
  rewrite length_firstn, Nat.min_l by lia.
  destruct (gather run self 0 (firstn (n * batch_size) contents)) as [s1 r1].
  cbn [fst snd].
  destruct (gather run s1 (n * batch_size) (chunk_at batch_size contents n))
    as [s2 r2]. cbn [fst snd].
  rewrite map_app, schedule_snoc.
  assert (Hsleep : (n * batch_size + batch_size <? List.length contents)
                   = (S n <? chunk_count (List.length contents) batch_size)).
  { destruct (Nat.ltb_spec (S n) (chunk_count (List.length contents) batch_size))
      as [H|H].
    - apply Nat.ltb_lt. apply chunk_count_lt in H; lia.
    - apply Nat.ltb_ge.
      destruct (Nat.le_gt_cases (List.length contents)
                  (n * batch_size + batch_size)) as [|H']; [assumption|].
      assert (S n < chunk_count (List.length contents) batch_size)
        by (apply chunk_count_lt; lia). lia. }
  rewrite Hsleep.
  assert (Hn' : (n <? chunk_count (List.length contents) batch_size) = true)
    by (apply Nat.ltb_lt; lia).
  rewrite Hn', andb_true_r.
  change (0 <? S n) with true. rewrite andb_true_l.
  f_equal.
  destruct (S n <? chunk_count (List.length contents) batch_size);
    destruct n as [|n].
  all: try change (0 <? 0) with false; try change (0 <? S n) with true.
  all: cbn [seq map]; rewrite <- ?app_assoc; reflexivity.
Qed.

Lemma batch_size_positive (user_tier : UserTier) : 0 < batch_size_for user_tier.
Proof. unfold batch_size_for. destruct (UserTier_eqb user_tier FREE); lia. Qed.

(** The loop computes what running the tasks one after the other, in input
    order, computes; the chunking shows in the trace only. *)
Lemma batch_loop_eq (self : LLMRouter) (contents : list string)
    (user_tier : UserTier) :
  batch_loop run self contents user_tier
  = mkBatchState
      (fst (gather run self 0 contents))
      (map collect (snd (gather run self 0 contents)))
      (schedule (chunks (batch_size_for user_tier) contents)).
Proof.
  unfold batch_loop, py_range.
  pose proof (batch_size_positive user_tier) as Hb.
  fold (chunk_count (List.length contents) (batch_size_for user_tier)).
  rewrite batch_loop_prefix by auto.
  assert (Hall : List.length contents
                 <= chunk_count (List.length contents) (batch_size_for user_tier)
                    * batch_size_for user_tier).
  { destruct (Nat.le_gt_cases (List.length contents)
                (chunk_count (List.length contents) (batch_size_for user_tier)
                 * batch_size_for user_tier)) as [|H]; [assumption|].
    apply chunk_count_lt in H; lia. }
  rewrite firstn_all2 by assumption.
  rewrite Nat.ltb_irrefl, andb_false_r, app_nil_r. reflexivity.
Qed.
End Loop.

(** *** The chunks *)

Lemma chunks_prefix (batch_size : nat) (contents : list string) (n : nat) :
  List.concat (map (chunk_at batch_size contents) (seq 0 n))
  = firstn (n * batch_size) contents.
Proof.
  induction n as [|n IH]; [reflexivity|].
  rewrite seq_S, map_app, concat_app, IH. cbn [map List.concat Nat.add].
  rewrite app_nil_r.
  replace (S n * batch_size) with (n * batch_size + batch_size) by lia.
  now rewrite firstn_plus.
Qed.

Lemma chunks_concat (batch_size : nat) (contents : list string) :
  0 < batch_size -> List.concat (chunks batch_size contents) = contents.
Proof.
  intros Hb. unfold chunks. rewrite chunks_prefix. apply firstn_all2.
  destruct (Nat.le_gt_cases (List.length contents)
              (chunk_count (List.length contents) batch_size * batch_size))
    as [|H]; [assumption|].
  apply chunk_count_lt in H; lia.
Qed.

Lemma chunks_length (batch_size : nat) (contents : list string) :
  List.length (chunks batch_size contents)
  = chunk_count (List.length contents) batch_size.
Proof. unfold chunks. now rewrite length_map, length_seq. Qed.

Lemma chunks_sizes (batch_size : nat) (contents : list string) (k : nat)
    (c : list string) :
  0 < batch_size ->
  nth_error (chunks batch_size contents) k = Some c ->
  1 <= List.length c <= batch_size /\
  (S k < List.length (chunks batch_size contents) -> List.length c = batch_size).
Proof.
  intros Hb Hk.
  assert (Hlt : k < chunk_count (List.length contents) batch_size).
  { rewrite <- chunks_length. apply nth_error_Some. congruence. }
  unfold chunks in Hk. rewrite nth_error_map, nth_error_seq in Hk.
  apply Nat.ltb_lt in Hlt as Hlt'. rewrite Hlt' in Hk. cbn in Hk.
  injection Hk as <-. unfold chunk_at.
  rewrite length_firstn, length_skipn.
  apply chunk_count_lt in Hlt; [|assumption].
  split; [lia|].
  rewrite chunks_length. intros HS.
  apply chunk_count_lt in HS; [|assumption]. lia.
Qed.
End BatchFacts.

Section BatchClaims.
Variable json_loads : string -> M pyval.
Local Open Scope list_scope.
Local Open Scope nat_scope.

Lemma select_optimal_model_models (s1 s2 : LLMRouter) (content_length : Z)
    (user_tier : UserTier) (operation : AIOperation)
    (budget_constraint : option float) :
  models s1 = models s2 ->
  select_optimal_model s1 content_length user_tier operation budget_constraint
  = select_optimal_model s2 content_length user_tier operation budget_constraint.
Proof. intros E. unfold select_optimal_model. now rewrite E. Qed.

Lemma process_content_result_models (s1 s2 : LLMRouter) (content : string)
    (operation : AIOperation) (user_tier : UserTier)
    (budget_constraint : option float) (net : network) :
  models s1 = models s2 -> api_key s1 = api_key s2 ->
  snd (process_content json_loads s1 content operation user_tier
         budget_constraint net)
  = snd (process_content json_loads s2 content operation user_tier
           budget_constraint net).
Proof.
  intros E Ek. unfold process_content. cbn [snd].
  rewrite !select_ensure_session.
  rewrite (select_optimal_model_models s1 s2) by assumption.
  replace (api_key (ensure_session s1)) with (api_key (ensure_session s2));
    [reflexivity|].
  unfold ensure_session. destruct (session s1), (session s2); cbn; congruence.
Qed.

Lemma process_content_task_models (operation : AIOperation)
    (user_tier : UserTier) (budget_constraint : option float)
    (net : nat -> network) (self : LLMRouter) (s : LLMRouter) (k : nat)
    (c : string) :
  models s = models self ->
  models (fst (process_content_task json_loads operation user_tier
                 budget_constraint net s k c)) = models self.
Proof.
  intros E. unfold process_content_task.
  pose proof (process_content_models json_loads s c operation user_tier
                budget_constraint (net k)) as H.
  destruct (process_content json_loads s c operation user_tier
              budget_constraint (net k)). cbn in *. congruence.
Qed.

Lemma process_content_task_frame (operation : AIOperation)
    (user_tier : UserTier) (budget_constraint : option float)
    (net : nat -> network) (self : LLMRouter) (s : LLMRouter) (k : nat)
    (c : string) :
  models s = models self /\ api_key s = api_key self ->
  models (fst (process_content_task json_loads operation user_tier
                 budget_constraint net s k c)) = models self /\
  api_key (fst (process_content_task json_loads operation user_tier
                  budget_constraint net s k c)) = api_key self.
Proof.
  intros [E Ek]. unfold process_content_task, process_content, ensure_session.
  cbn. destruct (session s); cbn; auto.
Qed.

Lemma process_content_post_raises (self : LLMRouter) (content : string)
    (operation : AIOperation) (user_tier : UserTier)
    (budget_constraint : option float) (net : network) (e : exn) :
  (forall url payload headers, net url payload headers = PostRaises e) ->
  success (snd (process_content json_loads self content operation user_tier
                  budget_constraint net)) = false.
Proof.
  intros Hnet. unfold process_content. cbn [snd].
  destruct (select_optimal_model _ _ _ _ _); [reflexivity|].
  now rewrite Hnet.
Qed.

(** C3. For an input of N items [process_batch] returns exactly N results;
    the result at position [i] is the result of [process_content] on the
    item at position [i] (talking to the network of that item), so a
    failure of one item, such as a request that raises, is the failed
    result at its own position and nothing is dropped or reordered.  The
    loop itself is fault-tolerant: for any
    behaviour of the tasks, raised exceptions included, it returns N
    results, the one at position [i] being the collected outcome of the
    task of item [i], and a raised exception is collected as a failed
    result carrying its message. *)
Theorem process_batch_preserves_order (self : LLMRouter) (contents : list string)
    (operation : AIOperation) (user_tier : UserTier)
    (budget_constraint : option float) (net : nat -> network) :
  let results :=
    bs_results (process_batch json_loads self contents operation user_tier
                  budget_constraint net) in
  List.length results = List.length contents /\
  (forall i c,
      nth_error contents i = Some c ->
      nth_error results i
      = Some (snd (process_content json_loads self c operation user_tier
                     budget_constraint (net i)))) /\
  (forall i c e,
      nth_error contents i = Some c ->
      (forall url payload headers, net i url payload headers = PostRaises e) ->
      exists r, nth_error results i = Some r /\ success r = false) /\
  (forall run,
      let results' := bs_results (batch_loop run self contents user_tier) in
      List.length results' = List.length contents /\
      forall i c,
        nth_error contents i = Some c ->
        exists s, nth_error results' i = Some (collect (snd (run s i c)))) /\
  (forall e,
      success (collect (inl e)) = false /\
      error (collect (inl e)) = Some (exn_str e)).
Proof.
  cbv zeta. unfold process_batch.
  assert (Hgen : forall run,
    List.length (bs_results (batch_loop run self contents user_tier))
    = List.length contents /\
    forall (Inv : LLMRouter -> Prop),
      (forall s k c, Inv s -> Inv (fst (run s k c))) -> Inv self ->
      forall i c, nth_error contents i = Some c ->
      exists s, Inv s /\
        nth_error (bs_results (batch_loop run self contents user_tier)) i
        = Some (collect (snd (run s i c)))).
  { intros run. rewrite batch_loop_eq. cbn [bs_results]. split.
    - now rewrite length_map, gather_length.
    - intros Inv Hrun Hs i c Hi.
      destruct (gather_nth run Inv Hrun contents self 0 i c Hs Hi)
        as (s & HI & Hn).
      exists s. split; [exact HI|].
      rewrite nth_error_map, Hn. reflexivity. }
  assert (Hpos : forall i c,
    nth_error contents i = Some c ->
    nth_error
      (bs_results
         (batch_loop (process_content_task json_loads operation user_tier
                        budget_constraint net) self contents user_tier)) i
    = Some (snd (process_content json_loads self c operation user_tier
                   budget_constraint (net i)))).
  { intros i c Hi.
    destruct (Hgen (process_content_task json_loads operation user_tier
                      budget_constraint net)) as [_ H].
    destruct (H (fun s => models s = models self /\ api_key s = api_key self))
      with (i := i) (c := c) as (s & [Hs Hk] & Hn); auto.
    { intros s k c' Hs. now apply process_content_task_frame. }
    rewrite Hn. f_equal. unfold process_content_task.
    rewrite <- (process_content_result_models s self) by assumption.
    now destruct (process_content json_loads s c operation user_tier
                    budget_constraint (net i)). }
  split; [apply Hgen|]. split; [exact Hpos|]. split; [|split].
  - intros i c e Hi Hnet. eexists. split; [exact (Hpos i c Hi)|].
    now apply process_content_post_raises with (e := e).
  - intros run. split; [apply Hgen|].
    intros i c Hi. destruct (Hgen run) as [_ H].
    destruct (H (fun _ => True)) with (i := i) (c := c) as (s & _ & Hn); auto.
    now exists s.
  - intros e. split; reflexivity.
Qed.

(** C6. [process_batch] cuts its input into consecutive chunks of 5 items
    on the Free tier and 20 otherwise (every chunk full except possibly the
    last, none empty), hands them to the dispatcher in order, and sleeps 2
    after every chunk but the last.  For 12 items on the Free tier there
    are exactly 3 chunks, of sizes 5, 5 and 2, with a pause between
    consecutive chunks. *)
Theorem process_batch_schedule (self : LLMRouter) (contents : list string)
    (operation : AIOperation) (user_tier : UserTier)
    (budget_constraint : option float) (net : nat -> network) :
  let trace :=
    bs_trace (process_batch json_loads self contents operation user_tier
                budget_constraint net) in
  let size := match user_tier with FREE => 5 | _ => 20 end in
  exists cs,
    trace = schedule cs /\
    List.concat cs = contents /\
    (forall k c,
        nth_error cs k = Some c ->
        1 <= List.length c <= size /\
        (S k < List.length cs -> List.length c = size)) /\
    (user_tier = FREE -> List.length contents = 12 ->
     exists c1 c2 c3,
       cs = [c1; c2; c3] /\
       List.length c1 = 5 /\ List.length c2 = 5 /\ List.length c3 = 2 /\
       trace = [Dispatch c1; Sleep 2%Z; Dispatch c2; Sleep 2%Z; Dispatch c3]).
Proof.
  cbv zeta. unfold process_batch. rewrite batch_loop_eq. cbn [bs_trace].
  assert (Es : batch_size_for user_tier
               = match user_tier with FREE => 5 | _ => 20 end)
    by now destruct user_tier.
  pose proof (batch_size_positive user_tier) as Hb.
  exists (chunks (batch_size_for user_tier) contents).
  split; [reflexivity|]. split; [now apply chunks_concat|]. split.
  - intros k c Hk. rewrite <- Es. now apply chunks_sizes.
  - intros -> Hlen. unfold chunks. rewrite Hlen.
    exists (chunk_at 5 contents 0), (chunk_at 5 contents 1),
           (chunk_at 5 contents 2).
    split; [reflexivity|].
    unfold chunk_at. rewrite !length_firstn, !length_skipn, Hlen.
    repeat split; reflexivity.
Qed.

(** C8. Every tier's catalog is a non-empty list whose descriptors all have
    a cost per token above zero and a positive token ceiling; a router is
    built with that catalog, and no operation changes it: selection returns
    a descriptor and no router, and the router that [process_content],
    [process_batch] or [close] leave behind has the catalog it started
    with. *)
Theorem catalog_positive_and_fixed :
  (forall user_tier,
      _initialize_models user_tier <> [] /\
      forall m, In m (_initialize_models user_tier) ->
                PrimFloat.ltb 0%float (cost_per_token m) = true /\
                (0 < max_tokens m)%Z) /\
  (forall key user_tier,
      models (LLMRouter_init key) user_tier = _initialize_models user_tier) /\
  (forall self content operation user_tier budget_constraint net,
      models (fst (process_content json_loads self content operation user_tier
                     budget_constraint net)) = models self) /\
  (forall self contents operation user_tier budget_constraint net,
      models (bs_self (process_batch json_loads self contents operation
                         user_tier budget_constraint net)) = models self) /\
  (forall self, models (close self) = models self).
Proof.
  split; [|split; [|split; [|split]]].
  - intros user_tier. split; [apply catalog_nonempty|].
    destruct user_tier; cbn; intros m H;
      repeat (destruct H as [<-|H]; [split; reflexivity|]); destruct H.
  - reflexivity.
  - intros. apply process_content_models.
  - intros. unfold process_batch. rewrite batch_loop_eq. cbn [bs_self].
    apply (gather_invariant _ (fun s => models s = models self)); [|reflexivity].
    intros s k c Hs. now apply process_content_task_models.
  - intros self. unfold close. now destruct (session self).
Qed.
End BatchClaims.

(** ** Instances *)

Lemma parse_failure_degrades_witness :
  structured CATEGORIZE = true /\
  select_optimal_model (router "sk" None) (Z.of_nat (String.length "hello"))
                       FREE CATEGORIZE None = inr claude_3_haiku /\
  exchange (fun _ _ _ => PostResponse 200 (ret "") (inr (PDict plain_text_body)))
           (api_key (router "sk" None)) claude_3_haiku "hello" CATEGORIZE
  = PostResponse 200 (ret "") (inr (PDict plain_text_body)) /\
  first_choice_content plain_text_body (PStr "not json") /\
  reject_all "not json"
  = inl (Exn JSONDecodeError "Expecting value: line 1 column 1 (char 0)") /\
  is_JSONDecodeError
    (Exn JSONDecodeError "Expecting value: line 1 column 1 (char 0)") = true /\
  token_count plain_text_body = Some (PInt 42) /\
  py_mul_float (PInt 42) (cost_per_token claude_3_haiku)
  = inr (PrimFloat.mul 42%float 0.00000025%float) /\
  snd (process_content reject_all (router "sk" None) "hello" CATEGORIZE FREE None
         (fun _ _ _ => PostResponse 200 (ret "") (inr (PDict plain_text_body))))
  = mkProcessingResult true (Some (PDict [("text", PStr "not json")])) None
      (Some (name claude_3_haiku)) (Some (PInt 42))
      (Some (PrimFloat.mul 42%float 0.00000025%float)).
Proof.
  assert (Hv : first_choice_content plain_text_body (PStr "not json")).
  { eexists _, _, _. repeat split; reflexivity. }
  split; [reflexivity|]. split; [reflexivity|]. split; [reflexivity|].
  split; [exact Hv|].
  split; [reflexivity|]. split; [reflexivity|]. split; [reflexivity|].
  split; [reflexivity|].
  apply (parse_failure_degrades reject_all (router "sk" None) "hello" CATEGORIZE
           FREE None
           (fun _ _ _ => PostResponse 200 (ret "") (inr (PDict plain_text_body)))
           claude_3_haiku (ret "") plain_text_body "not json"
           (Exn JSONDecodeError "Expecting value: line 1 column 1 (char 0)")
           (PInt 42) (PrimFloat.mul 42%float 0.00000025%float));
    [reflexivity|reflexivity|reflexivity|exact Hv|reflexivity|reflexivity
    |reflexivity|reflexivity].
Defined.

(** The scenario of a provider answering 429. *)
Example rate_limited :
  snd (process_content reject_all (router "sk" None) "Great product launch today!"
         CATEGORIZE FREE None
         (fun _ _ _ => PostResponse 429 (ret "slow down") (ret PNone)))
  = mkProcessingResult false None
      (Some "API request failed with status 429: slow down")
      (Some "anthropic/claude-3-haiku") None None.
Proof. reflexivity. Qed.

(** A body without usage, summarised. *)
Example summary_without_usage :
  snd (process_content reject_all (router "sk" None) "hello" SUMMARIZE FREE None
         (fun _ _ _ => PostResponse 200 (ret "") (ret (body_with (PStr "short") []))))
  = mkProcessingResult true (Some (PDict [("text", PStr "short")])) None
      (Some "openai/gpt-3.5-turbo") (Some (PInt 0)) (Some 0%float).
Proof. reflexivity. Qed.

(** Twelve items on the Free tier, every other request timing out. *)
Example twelve_items_free :
  let net (k : nat) : network :=
    fun _ _ _ =>
      if Nat.even k
      then PostRaises (Exn (OtherException "TimeoutError") "")
      else PostResponse 200 (ret "") (ret (body_with (PStr "x") [])) in
  let st := process_batch reject_all (router "sk" None)
              ["a"; "b"; "c"; "d"; "e"; "f"; "g"; "h"; "i"; "j"; "k"; "l"]
              CATEGORIZE FREE None net in
  map success (bs_results st)
  = [false; true; false; true; false; true; false; true; false; true; false; true]
  /\ bs_trace st
     = [Dispatch ["a"; "b"; "c"; "d"; "e"]; Sleep 2;
        Dispatch ["f"; "g"; "h"; "i"; "j"]; Sleep 2;
        Dispatch ["k"; "l"]].
Proof. split; reflexivity. Qed.

(** The request of a Categorize dispatch. *)
Example categorize_request :
  request_payload claude_3_haiku "p" CATEGORIZE
  = PDict [ ("model", PStr "anthropic/claude-3-haiku");
            ("messages", PList [PDict [("role", PStr "user"); ("content", PStr "p")]]);
            ("max_tokens", PInt 500);
            ("temperature", PFloat 0.3%float) ]
  /\ substringb (quoted "Great product launch today!")
       (create_prompt "Great product launch today!" CATEGORIZE) = true.
Proof. split; reflexivity. Qed.

(** * Further properties *)

(** ** Prompts *)

Section PromptFacts.

Lemma str_app_assoc (a b c : string) : (a ++ b) ++ c = a ++ (b ++ c).
Proof. induction a as [|ch a IH]; cbn; congruence. Qed.

Lemma prefix_app (n b : string) : String.prefix n (n ++ b) = true.
Proof.
  induction n as [|ch n IH]; cbn.
  - now destruct b.
  - destruct (ascii_dec ch ch) as [_|H]; [exact IH|congruence].
Qed.

Lemma substringb_here (n s : string) :
  String.prefix n s = true -> substringb n s = true.
Proof. intros H. destruct s; cbn [substringb]; rewrite H; reflexivity. Qed.

Lemma substringb_app_r (n a s : string) :
  substringb n s = true -> substringb n (a ++ s) = true.
Proof.
  intros H. induction a as [|ch a IH]; cbn [append]; [exact H|].
  cbn [substringb]. rewrite IH. apply orb_true_r.
Qed.

Lemma substringb_middle (n a b : string) : substringb n (a ++ n ++ b) = true.
Proof. apply substringb_app_r, substringb_here, prefix_app. Qed.

(** Every template is a fixed head and a fixed tail around the quoted
    content. *)
Lemma create_prompt_split (operation : AIOperation) :
  exists head tail,
    (forall content,
        create_prompt content operation = head ++ quoted content ++ tail) /\
    substringb "JSON" head = false /\
    substringb "JSON" tail = structured operation.
Proof.
  pose (p := create_prompt "" operation).
  pose (at_ := match String.index 0 "Tweet: " p with
               | Some n => (n + 7)%nat
               | None => 0%nat
               end).
  exists (substring 0 at_ p), (substring (at_ + 2) (String.length p) p).
  subst at_ p. destruct operation.
  all: match goal with
       | |- (forall c, _ = ?h ++ _ ++ ?t) /\ _ =>
           let h' := eval vm_compute in h in
           let t' := eval vm_compute in t in
           change h with h'; change t with t'
       end.
  all: split; [|split; reflexivity].
  all: intros content; unfold create_prompt, lines, quoted;
    cbn [String.concat]; rewrite !str_app_assoc; reflexivity.
Qed.

(** X1. The prompt of every operation contains the content verbatim
    between double quotes, whatever characters the content holds: nothing
    is escaped or truncated. *)
Theorem create_prompt_embeds_content (content : string) (operation : AIOperation) :
  substringb (quoted content) (create_prompt content operation) = true.
Proof.
  destruct (create_prompt_split operation) as (head & tail & E & _).
  rewrite E. apply substringb_middle.
Qed.

(** X2. Every prompt is a fixed text around the quoted content, and the
    fixed text asks for JSON exactly for the operations whose answer
    [process_content] hands to [json.loads]: the text before the content
    never mentions JSON, the text after it does for Categorize,
    ExtractInsights and GenerateTags and does not for Summarize. *)
Theorem templates_ask_for_json_iff_structured (operation : AIOperation) :
  exists head tail,
    (forall content,
        create_prompt content operation = head ++ quoted content ++ tail) /\
    substringb "JSON" head = false /\
    (substringb "JSON" tail = true <-> structured operation = true).
Proof.
  destruct (create_prompt_split operation) as (head & tail & E & Hh & Ht).
  exists head, tail. rewrite Ht. tauto.
Qed.
End PromptFacts.

(** ** More on selection *)

Section SelectionFacts.
Local Open Scope list_scope.

Lemma not_nan_of_Prim2SF (x : float) :
  Prim2SF x <> S754_nan -> PrimFloat.is_nan x = false.
Proof.
  intros H. unfold PrimFloat.is_nan. rewrite eqb_spec.
  assert (E : SFeqb (Prim2SF x) (Prim2SF x) = true).
  { apply SFeqb_rank; auto. split; intros L; exact (lex_lt_asym _ _ L L). }
  now rewrite E.
Qed.

Lemma leb_true_numbers (x y : float) :
  PrimFloat.leb x y = true ->
  PrimFloat.is_nan x = false /\ PrimFloat.is_nan y = false.
Proof.
  rewrite leb_spec. intros H.
  split; apply not_nan_of_Prim2SF; intros E; rewrite E in H;
    [|destruct (Prim2SF x)]; discriminate.
Qed.

Lemma ltb_true_numbers (x y : float) :
  PrimFloat.ltb x y = true ->
  PrimFloat.is_nan x = false /\ PrimFloat.is_nan y = false.
Proof.
  rewrite ltb_spec. intros H.
  split; apply not_nan_of_Prim2SF; intros E; rewrite E in H;
    [|destruct (Prim2SF x)]; discriminate.
Qed.

Lemma leb_rank (x y : float) :
  PrimFloat.is_nan x = false -> PrimFloat.is_nan y = false ->
  (PrimFloat.leb x y = true
   <-> ~ lex_lt (rank (Prim2SF y)) (rank (Prim2SF x))).
Proof.
  intros Hx Hy. rewrite leb_spec. apply SFleb_rank; now apply Prim2SF_not_nan.
Qed.

Lemma leb_trans (x y z : float) :
  PrimFloat.leb x y = true -> PrimFloat.leb y z = true ->
  PrimFloat.leb x z = true.
Proof.
  intros H1 H2.
  destruct (leb_true_numbers _ _ H1) as [Hx Hy].
  destruct (leb_true_numbers _ _ H2) as [_ Hz].
  apply leb_rank; auto.
  apply lex_lt_negtrans with (b := rank (Prim2SF y)); now apply leb_rank.
Qed.

Lemma leb_nan_r (x b : float) :
  PrimFloat.is_nan b = true -> PrimFloat.leb x b = false.
Proof.
  intros Hb. destruct (PrimFloat.leb x b) eqn:E; [|reflexivity].
  apply leb_true_numbers in E. destruct E as [_ E]. congruence.
Qed.

Lemma nan_truthy (b : float) :
  PrimFloat.is_nan b = true -> float_truthy b = true.
Proof.
  intros Hb. unfold float_truthy.
  destruct (PrimFloat.eqb b 0%float) eqn:E; [|reflexivity].
  rewrite eqb_spec in E. unfold SFeqb in E.
  assert (Hn : Prim2SF b = S754_nan).
  { destruct (Prim2SF b) eqn:P; try reflexivity;
      assert (H : PrimFloat.is_nan b = false)
        by (apply not_nan_of_Prim2SF; rewrite P; discriminate);
      congruence. }
  rewrite Hn in E. discriminate.
Qed.
Lemma leb_below_false (b z p : float) :
  PrimFloat.ltb b z = true -> PrimFloat.leb z p = true ->
  PrimFloat.leb p b = false.
Proof.
  intros Hb Hz. destruct (PrimFloat.leb p b) eqn:E; [|reflexivity].
  pose proof (leb_trans _ _ _ Hz E) as Hzb.
  destruct (ltb_true_numbers _ _ Hb) as [Nb Nz].
  apply leb_rank in Hzb; auto. apply ltb_rank in Hb; auto. contradiction.
Qed.

(** Every estimate of a tier lies between zero and its costliest
    descriptor at the largest token estimate. *)
Lemma estimates_bounded :
  forallb
    (fun user_tier =>
       forallb
         (fun m =>
            forallb
              (fun n =>
                 PrimFloat.leb 0%float
                   (PrimFloat.mul (cost_per_token m) (Z2float (Z.of_nat n)))
                 && PrimFloat.leb
                      (PrimFloat.mul (cost_per_token m) (Z2float (Z.of_nat n)))
                      (PrimFloat.mul
                         match user_tier with
                         | FREE => 0.000002%float
                         | PRO => 0.00003%float
                         | PREMIUM => 0.000075%float
                         end 500%float))
              (seq 0 501))
         (_initialize_models user_tier))
    [FREE; PRO; PREMIUM] = true.
Proof. vm_compute. reflexivity. Qed.

Lemma estimate_bounds (content_length : Z) (user_tier : UserTier)
    (m : ModelConfig) :
  0 <= content_length -> In m (_initialize_models user_tier) ->
  PrimFloat.leb 0%float
    (PrimFloat.mul (cost_per_token m) (Z2float (Z.min (content_length * 2) 500)))
  = true /\
  PrimFloat.leb
    (PrimFloat.mul (cost_per_token m) (Z2float (Z.min (content_length * 2) 500)))
    (PrimFloat.mul
       match user_tier with
       | FREE => 0.000002%float
       | PRO => 0.00003%float
       | PREMIUM => 0.000075%float
       end 500%float) = true.
Proof.
  intros H Hm. set (z := Z.min (content_length * 2) 500).
  assert (Hz : 0 <= z <= 500) by (unfold z; lia).
  pose proof estimates_bounded as Hb.
  rewrite forallb_forall in Hb.
  assert (Ht : In user_tier [FREE; PRO; PREMIUM])
    by (destruct user_tier; cbn; auto).
  specialize (Hb user_tier Ht). rewrite forallb_forall in Hb.
  specialize (Hb m Hm). rewrite forallb_forall in Hb.
  specialize (Hb (Z.to_nat z)). cbv beta in Hb.
  rewrite Z2Nat.id in Hb by lia.
  apply andb_true_iff. apply Hb. apply in_seq. lia.
Qed.

Lemma select_fallback (self : LLMRouter) (content_length : Z)
    (user_tier : UserTier) (operation : AIOperation)
    (budget_constraint : option float) :
  0 <= content_length ->
  (forall m, In m (models self user_tier) ->
             eligible content_length budget_constraint m = false) ->
  select_optimal_model self content_length user_tier operation budget_constraint
  = py_min cost_per_token (models self user_tier).
Proof.
  intros H Hnone. rewrite select_optimal_model_eq by assumption.
  destruct (filter _ _) as [|m rest] eqn:Ef; [reflexivity|].
  assert (Hm : In m (m :: rest)) by now left.
  rewrite <- Ef in Hm. apply filter_In in Hm. destruct Hm as [Hin He].
  apply sort_for_operation_In in Hin. rewrite (Hnone m Hin) in He. discriminate.
Qed.

Lemma shipped_cheapest (user_tier : UserTier) :
  exists m,
    py_min cost_per_token (_initialize_models user_tier) = inr m /\
    In m (_initialize_models user_tier) /\
    forall m', In m' (_initialize_models user_tier) ->
               PrimFloat.leb (cost_per_token m) (cost_per_token m') = true.
Proof.
  destruct (py_min_first_min cost_per_token (_initialize_models user_tier))
    as (m & Em & Hm).
  - apply catalog_costs_are_numbers.
  - apply catalog_nonempty.
  - exists m. split; [exact Em|]. split.
    + now apply first_min_In in Hm.
    + apply first_min_least; [apply catalog_costs_are_numbers|exact Hm].
Qed.

(** X3. Raising a budget never drops a descriptor: what the budget
    comprehension keeps under a non-zero budget [b] it also keeps under any
    budget [b' >= b].  (Not so from [b = 0], which keeps everything.) *)
Theorem budget_filter_monotone (content_length : Z) (b b' : float)
    (l : list ModelConfig) :
  0 <= content_length ->
  float_truthy b = true ->
  PrimFloat.leb b b' = true ->
  exists kept kept',
    apply_budget content_length (Some b) l = inr kept /\
    apply_budget content_length (Some b') l = inr kept' /\
    forall m, In m kept -> In m kept'.
Proof.
  intros H Hb Hle. rewrite !apply_budget_filter by assumption.
  eexists _, _. split; [reflexivity|]. split; [reflexivity|].
  intros m Hm. apply filter_In in Hm. destruct Hm as [Hin Hp].
  apply filter_In. split; [exact Hin|].
  unfold passes_budget in *. rewrite Hb in Hp.
  destruct (float_truthy b'); [|reflexivity].
  unfold affordable in *. now apply leb_trans with (y := b).
Qed.

Lemma budget_filter_monotone_witness :
  0 <= 10 /\
  float_truthy 0.00005%float = true /\
  PrimFloat.leb 0.00005%float 0.0005%float = true /\
  exists kept kept',
    apply_budget 10 (Some 0.00005%float) (_initialize_models PRO) = inr kept /\
    apply_budget 10 (Some 0.0005%float) (_initialize_models PRO) = inr kept' /\
    forall m, In m kept -> In m kept'.
Proof.
  split; [lia|]. split; [reflexivity|]. split; [reflexivity|].
  apply (budget_filter_monotone 10 0.00005%float 0.0005%float
           (_initialize_models PRO)); [lia|reflexivity|reflexivity].
Defined.

(** X4. A budget that nothing can meet, NaN or negative, sends every
    request of non-negative length to the tier's cheapest descriptor,
    whatever the operation: Summarize and ExtractInsights lose their
    preference for the costliest model. *)
Theorem unpayable_budget_selects_cheapest (key : string)
    (sess : option ClientSession) (content_length : Z) (user_tier : UserTier)
    (operation : AIOperation) (b : float) :
  0 <= content_length ->
  PrimFloat.is_nan b = true \/ PrimFloat.ltb b 0%float = true ->
  exists m,
    select_optimal_model (router key sess) content_length user_tier operation
                         (Some b) = inr m /\
    In m (_initialize_models user_tier) /\
    forall m', In m' (_initialize_models user_tier) ->
               PrimFloat.leb (cost_per_token m) (cost_per_token m') = true.
Proof.
  intros H Hb.
  rewrite select_fallback; [apply shipped_cheapest|assumption|].
  intros m Hm. cbn [models router] in Hm.
  unfold eligible, passes_budget, affordable.
  destruct Hb as [Hb|Hb].
  - now rewrite (nan_truthy b Hb), leb_nan_r.
  - destruct (ltb_true_numbers _ _ Hb) as [Nb N0].
    unfold float_truthy. rewrite (eqb_false_of_gtb b 0%float Nb N0 Hb). cbn [negb].
    rewrite (leb_below_false b 0%float); auto.
    now apply (estimate_bounds content_length user_tier m).
Qed.

Lemma unpayable_budget_selects_cheapest_witness :
  0 <= 10 /\
  (PrimFloat.is_nan PrimFloat.nan = true
   \/ PrimFloat.ltb PrimFloat.nan 0%float = true) /\
  exists m,
    select_optimal_model (router "sk" None) 10 PREMIUM SUMMARIZE
                         (Some PrimFloat.nan) = inr m /\
    In m (_initialize_models PREMIUM) /\
    forall m', In m' (_initialize_models PREMIUM) ->
               PrimFloat.leb (cost_per_token m) (cost_per_token m') = true.
Proof.
  split; [lia|]. split; [left; reflexivity|].
  apply (unpayable_budget_selects_cheapest "sk" None 10 PREMIUM SUMMARIZE
           PrimFloat.nan); [lia|left; reflexivity].
Defined.

(** X5. Content longer than every token ceiling (more than 8000) is not
    refused: for every tier, operation and budget, selection returns the
    tier's cheapest descriptor, whose ceiling is below the content length. *)
Theorem oversize_content_selects_cheapest (key : string)
    (sess : option ClientSession) (content_length : Z) (user_tier : UserTier)
    (operation : AIOperation) (budget_constraint : option float) :
  8000 < content_length ->
  exists m,
    select_optimal_model (router key sess) content_length user_tier operation
                         budget_constraint = inr m /\
    In m (_initialize_models user_tier) /\
    (forall m', In m' (_initialize_models user_tier) ->
                PrimFloat.leb (cost_per_token m) (cost_per_token m') = true) /\
    max_tokens m < content_length.
Proof.
  intros H.
  assert (Hfit : forall m, In m (_initialize_models user_tier) ->
                           max_tokens m <= 8000).
  { destruct user_tier; cbn; intros m Hm;
      repeat (destruct Hm as [<-|Hm]; [cbn; lia|]); destruct Hm. }
  rewrite select_fallback; [|lia|].
  - destruct (shipped_cheapest user_tier) as (m & Em & Hin & Hmin).
    exists m. repeat split; auto. specialize (Hfit m Hin). lia.
  - intros m Hm. cbn [models router] in Hm. specialize (Hfit m Hm).
    unfold eligible, fits_length.
    destruct (Z.geb_spec (max_tokens m) content_length); [lia|].
    apply andb_false_r.
Qed.

Lemma oversize_content_selects_cheapest_witness :
  8000 < 9000 /\
  exists m,
    select_optimal_model (router "sk" None) 9000 PRO SUMMARIZE None = inr m /\
    In m (_initialize_models PRO) /\
    (forall m', In m' (_initialize_models PRO) ->
                PrimFloat.leb (cost_per_token m) (cost_per_token m') = true) /\
    max_tokens m < 9000.
Proof.
  split; [lia|].
  apply (oversize_content_selects_cheapest "sk" None 9000 PRO SUMMARIZE None).
  lia.
Defined.

(** X6. A budget of at least the binary64 product of the tier's highest
    cost per token (0.000002 on Free, 0.00003 on Pro, 0.000075 on Premium)
    and the largest token estimate, 500, constrains nothing: for every
    non-negative length and every operation, selection returns what it
    returns without a budget.  (On Pro that product is just above 0.015,
    so a budget of 0.015 is not ample.) *)
Theorem ample_budget_is_no_budget (key : string) (sess : option ClientSession)
    (content_length : Z) (user_tier : UserTier) (operation : AIOperation)
    (b : float) :
  0 <= content_length ->
  PrimFloat.leb
    (PrimFloat.mul
       match user_tier with
       | FREE => 0.000002%float
       | PRO => 0.00003%float
       | PREMIUM => 0.000075%float
       end 500%float) b = true ->
  select_optimal_model (router key sess) content_length user_tier operation (Some b)
  = select_optimal_model (router key sess) content_length user_tier operation None.
Proof.
  intros H Hb. rewrite !select_optimal_model_eq by assumption.
  cbn [models router].
  rewrite (filter_ext_in (eligible content_length (Some b))
             (eligible content_length None)); [reflexivity|].
  intros m Hm. apply sort_for_operation_In in Hm.
  unfold eligible. f_equal. unfold passes_budget.
  destruct (float_truthy b); [|reflexivity].
  unfold affordable. apply leb_trans with (2 := Hb).
  now apply (estimate_bounds content_length user_tier m).
Qed.

Lemma ample_budget_is_no_budget_witness :
  0 <= 300 /\
  PrimFloat.leb (PrimFloat.mul 0.00003%float 500%float) 0.02%float = true /\
  select_optimal_model (router "sk" None) 300 PRO SUMMARIZE (Some 0.02%float)
  = select_optimal_model (router "sk" None) 300 PRO SUMMARIZE None.
Proof.
  split; [lia|]. split; [reflexivity|].
  apply (ample_budget_is_no_budget "sk" None 300 PRO SUMMARIZE 0.02%float);
    [lia|reflexivity].
Defined.
End SelectionFacts.

(** A Pro budget of 0.015 is below gpt-4's estimate for 250 characters or
    more. *)
Example pro_budget_just_short :
  select_optimal_model (router "sk" None) 300 PRO SUMMARIZE (Some 0.015%float)
  = inr claude_3_sonnet /\
  select_optimal_model (router "sk" None) 300 PRO SUMMARIZE None = inr gpt_4.
Proof. split; reflexivity. Qed.

(** ** More on single-item dispatch *)

Section MoreDispatchFacts.
Variable json_loads : string -> M pyval.
Local Open Scope list_scope.

Lemma shipped_endpoint (user_tier : UserTier) (m : ModelConfig) :
  In m (_initialize_models user_tier) -> api_endpoint m = openrouter.
Proof.
  destruct user_tier; cbn; intros H;
    repeat (destruct H as [<-|H]; [reflexivity|]); destruct H.
Qed.

Lemma py_mul_float_number (v : pyval) (f c : float) :
  py_mul_float v f = inr c -> is_number v = true.
Proof. destruct v; cbn; try discriminate; reflexivity. Qed.

(** What the response handler returns is well shaped and names the model. *)
Lemma handle_response_shape (model : ModelConfig) (operation : AIOperation)
    (status : Z) (text : M string) (json : M pyval) (r : ProcessingResult) :
  handle_response json_loads model operation status text json = inr r ->
  well_shaped r /\ model_used r = Some (name model).
Proof.
  unfold handle_response, well_shaped.
  destruct (negb (status =? 200)%Z).
  - destruct text; cbn; [discriminate|]. intros [= <-]. cbn.
    repeat split; congruence.
  - repeat first
      [ progress cbn [bind]
      | match goal with
        | |- inl _ = inr _ -> _ => discriminate
        | |- ret _ = inr _ -> _ =>
            unfold ret; intros [= <-]; cbn;
            first
              [ solve [repeat split; congruence]
              | solve [ repeat split; try congruence;
                        eexists; split;
                        [reflexivity|eapply py_mul_float_number; eassumption] ] ]
        | |- bind ?m _ = _ -> _ => let E := fresh "E" in destruct m eqn:E
        | |- (if ?b then _ else _) = _ -> _ => destruct b
        end ].
Qed.

Lemma failed_shape (e : exn) (model_used : option string) :
  well_shaped (failed e model_used).
Proof. unfold well_shaped. cbn. repeat split; congruence. Qed.

Lemma process_content_shape (self : LLMRouter) (content : string)
    (operation : AIOperation) (user_tier : UserTier)
    (budget_constraint : option float) (net : network) :
  well_shaped (snd (process_content json_loads self content operation user_tier
                      budget_constraint net)).
Proof.
  unfold process_content. cbn [snd].
  destruct (select_optimal_model _ _ _ _ _) as [e|model];
    [apply failed_shape|].
  destruct (dispatch json_loads model operation _) as [e|r] eqn:E;
    [apply failed_shape|].
  unfold dispatch in E. destruct (net _ _ _) as [e|status text json];
    [discriminate|].
  now apply handle_response_shape in E.
Qed.

Lemma process_content_in_tier (key : string) (sess : option ClientSession)
    (content : string) (operation : AIOperation) (user_tier : UserTier)
    (budget_constraint : option float) (net : network) :
  exists m,
    In m (_initialize_models user_tier) /\
    model_used (snd (process_content json_loads (router key sess) content
                       operation user_tier budget_constraint net))
    = Some (name m).
Proof.
  destruct (shipped_selection key sess content user_tier operation
              budget_constraint) as (model & Em & Hin).
  exists model. split; [exact Hin|].
  rewrite (process_content_eq _ _ _ _ _ _ _ model Em).
  destruct (dispatch json_loads model operation _) as [e|r] eqn:E;
    [reflexivity|].
  unfold dispatch in E. destruct (exchange _ _ _ _ _) as [e|status text json];
    [discriminate|].
  now apply handle_response_shape in E.
Qed.

(** X7. Every result of [process_content], on any router and whatever the
    network does, is well shaped: a success carries no error, a token count
    that is a number (an [int], a [bool] or a [float], never [None]), a cost
    and the model's name; a failure carries an error message and no
    payload, token count or cost.  (Nothing is said of the payload of a
    success: it is whatever was decoded, and [json.loads] returns [None]
    for the text [null].) *)
Theorem process_content_well_shaped (self : LLMRouter) (content : string)
    (operation : AIOperation) (user_tier : UserTier)
    (budget_constraint : option float) (net : network) :
  let r := snd (process_content json_loads self content operation user_tier
                  budget_constraint net) in
  (success r = true ->
   error r = None /\
   (exists t, tokens_used r = Some t /\ is_number t = true) /\
   cost r <> None /\ model_used r <> None) /\
  (success r = false ->
   error r <> None /\ result r = None /\ tokens_used r = None /\ cost r = None).
Proof.
  cbv zeta.
  pose proof (process_content_shape self content operation user_tier
                budget_constraint net) as H.
  unfold well_shaped in H.
  destruct (success _); split; intros E; try discriminate E; exact H.
Qed.

(** X8. Tier isolation: on a router built by [__init__], every result of
    [process_content], success or failure, names a model, and the model is
    one of the requested tier's list. *)
Theorem process_content_stays_in_tier (key : string) (sess : option ClientSession)
    (content : string) (operation : AIOperation) (user_tier : UserTier)
    (budget_constraint : option float) (net : network) :
  exists m,
    In m (_initialize_models user_tier) /\
    model_used (snd (process_content json_loads (router key sess) content
                       operation user_tier budget_constraint net))
    = Some (name m).
Proof.
  destruct (shipped_selection key sess content user_tier operation
              budget_constraint) as (model & Em & Hin).
  exists model. split; [exact Hin|].
  rewrite (process_content_eq _ _ _ _ _ _ _ model Em).
  destruct (dispatch json_loads model operation _) as [e|r] eqn:E;
    [reflexivity|].
  unfold dispatch in E. destruct (exchange _ _ _ _ _) as [e|status text json];
    [discriminate|].
  now apply handle_response_shape in E.
Qed.

(** X9. A router built by [__init__] only ever talks to the OpenRouter
    endpoint, with its own key: two networks that answer alike every
    request to that URL carrying the router's headers give the same
    result. *)
Theorem process_content_only_openrouter (key : string)
    (sess : option ClientSession) (content : string) (operation : AIOperation)
    (user_tier : UserTier) (budget_constraint : option float)
    (net net' : network) :
  (forall payload,
      net openrouter payload (request_headers key)
      = net' openrouter payload (request_headers key)) ->
  snd (process_content json_loads (router key sess) content operation user_tier
         budget_constraint net)
  = snd (process_content json_loads (router key sess) content operation user_tier
           budget_constraint net').
Proof.
  intros Hnet.
  destruct (shipped_selection key sess content user_tier operation
              budget_constraint) as (model & Em & Hin).
  rewrite !(process_content_eq _ _ _ _ _ _ _ model Em).
  unfold exchange. cbn [api_key router].
  now rewrite (shipped_endpoint user_tier model Hin), Hnet.
Qed.

(** X10. Bodies of a 200 response that are not what the handler indexes
    give failures that name the selected model and say what was wrong: a
    body that is [null], a boolean or a number is "not iterable"; a first
    choice without [message], or a message without [content], is reported
    by the missing key. *)
Theorem malformed_body_is_a_failure (key : string) (sess : option ClientSession)
    (content : string) (operation : AIOperation) (user_tier : UserTier)
    (budget_constraint : option float) (net : network) :
  exists model,
    select_optimal_model (router key sess) (Z.of_nat (String.length content))
                         user_tier operation budget_constraint = inr model /\
    let r := snd (process_content json_loads (router key sess) content operation
                    user_tier budget_constraint net) in
    let out := exchange net key model content operation in
    let fails_with (msg : string) :=
      r = mkProcessingResult false None (Some msg) (Some (name model)) None None in
    (forall text data,
        out = PostResponse 200 text (inr data) ->
        match data with
        | PNone | PBool _ | PInt _ | PFloat _ => True
        | _ => False
        end ->
        fails_with ("argument of type '" ++ type_name data ++ "' is not iterable")%string) /\
    (forall text d choice rest,
        out = PostResponse 200 text (inr (PDict d)) ->
        dict_lookup "choices" d = Some (PList (PDict choice :: rest)) ->
        dict_lookup "message" choice = None ->
        fails_with "'message'") /\
    (forall text d choice rest message,
        out = PostResponse 200 text (inr (PDict d)) ->
        dict_lookup "choices" d = Some (PList (PDict choice :: rest)) ->
        dict_lookup "message" choice = Some (PDict message) ->
        dict_lookup "content" message = None ->
        fails_with "'content'").
Proof.
  destruct (shipped_selection key sess content user_tier operation
              budget_constraint) as (model & Em & _).
  exists model. split; [exact Em|]. cbv zeta.
  rewrite (process_content_eq _ _ _ _ _ _ _ model Em). cbn [api_key router].
  split; [|split].
  - intros text data -> Hd. destruct data; try contradiction; reflexivity.
  - intros text d choice rest -> Hc Hm. cbn. rewrite Hc. cbn. now rewrite Hm.
  - intros text d choice rest message -> Hc Hm Hv.
    cbn. rewrite Hc. cbn. rewrite Hm. cbn. now rewrite Hv.
Qed.

End MoreDispatchFacts.



Lemma process_content_only_openrouter_witness :
  (forall payload,
      rate_limiting openrouter payload (request_headers "sk")
      = rate_limiting_openrouter openrouter payload (request_headers "sk")) /\
  snd (process_content reject_all (router "sk" None) "hello" CATEGORIZE PRO None
         rate_limiting)
  = snd (process_content reject_all (router "sk" None) "hello" CATEGORIZE PRO None
           rate_limiting_openrouter).
Proof.
  split; [intros payload; reflexivity|].
  apply (process_content_only_openrouter reject_all "sk" None "hello" CATEGORIZE
           PRO None).
  intros payload. reflexivity.
Defined.


(** ** More on batch dispatch *)

Section MoreBatchFacts.
Variable json_loads : string -> M pyval.
Local Open Scope list_scope.
Local Open Scope nat_scope.

Lemma combine_app_same {A B} (a a' : list A) (b b' : list B) :
  List.length a = List.length b ->
  combine (a ++ a') (b ++ b') = combine a b ++ combine a' b'.
Proof.
  revert b. induction a as [|x a IH]; intros [|y b] H; try discriminate H.
  - reflexivity.
  - cbn. f_equal. apply IH. now injection H.
Qed.

Lemma map_indexed_shift {A B} (g : nat -> A -> B) (a : nat) (l : list A) (k : nat) :
  map (fun ic => g (fst ic) (snd ic)) (combine (seq (a + k) (List.length l)) l)
  = map (fun ic => g (a + fst ic) (snd ic)) (combine (seq k (List.length l)) l).
Proof.
  revert k. induction l as [|x l IH]; intros k; [reflexivity|].
  cbn. f_equal. rewrite <- Nat.add_succ_r. apply IH.
Qed.

(** The outcomes of a chunk of tasks, item by item. *)
Lemma gather_results (operation : AIOperation) (user_tier : UserTier)
    (budget_constraint : option float) (net : nat -> network)
    (self : LLMRouter) (l : list string) :
  forall (s : LLMRouter) (k : nat),
    models s = models self -> api_key s = api_key self ->
    snd (gather (process_content_task json_loads operation user_tier
                   budget_constraint net) s k l)
    = map (fun ic =>
             inr (snd (process_content json_loads self (snd ic) operation
                         user_tier budget_constraint (net (fst ic)))))
          (combine (seq k (List.length l)) l).
Proof.
  induction l as [|x l IH]; intros s k Hm Hk; [reflexivity|].
  cbn [gather List.length seq combine map fst snd].
  pose proof (process_content_task_frame json_loads operation user_tier
                budget_constraint net self s k x (conj Hm Hk)) as [Hm' Hk'].
  pose proof (process_content_result_models json_loads s self x operation
                user_tier budget_constraint (net k) Hm Hk) as Hr.
  unfold process_content_task in *.
  destruct (process_content json_loads s x operation user_tier
              budget_constraint (net k)) as [s' r].
  cbn [fst snd] in *. specialize (IH s' (S k) Hm' Hk').
  destruct (gather _ s' (S k) l) as [s'' rs]. cbn [snd] in *.
  now rewrite IH, Hr.
Qed.

Lemma process_batch_results (self : LLMRouter) (contents : list string)
    (operation : AIOperation) (user_tier : UserTier)
    (budget_constraint : option float) (net : nat -> network) :
  bs_results (process_batch json_loads self contents operation user_tier
                budget_constraint net)
  = map (fun ic =>
           snd (process_content json_loads self (snd ic) operation user_tier
                  budget_constraint (net (fst ic))))
        (combine (seq 0 (List.length contents)) contents).
Proof.
  unfold process_batch. rewrite batch_loop_eq. cbn [bs_results].
  rewrite (gather_results operation user_tier budget_constraint net self)
    by reflexivity.
  rewrite map_map. reflexivity.
Qed.

(** X13. Batches compose: the results of a batch over [l1 ++ l2] are the
    results of the batch over [l1] followed by those of the batch over
    [l2] (each item keeping its own exchange), wherever the chunk
    boundaries fall. *)
Theorem process_batch_concatenates (self : LLMRouter) (l1 l2 : list string)
    (operation : AIOperation) (user_tier : UserTier)
    (budget_constraint : option float) (net : nat -> network) :
  bs_results (process_batch json_loads self (l1 ++ l2) operation user_tier
                budget_constraint net)
  = bs_results (process_batch json_loads self l1 operation user_tier
                  budget_constraint net)
    ++ bs_results (process_batch json_loads self l2 operation user_tier
                     budget_constraint
                     (fun k => net (List.length l1 + k))).
Proof.
  rewrite !process_batch_results.
  rewrite length_app, seq_app, combine_app_same by now rewrite length_seq.
  rewrite map_app. f_equal.
  pose proof (map_indexed_shift
                (fun i c => snd (process_content json_loads self c operation
                                   user_tier budget_constraint (net i)))
                (List.length l1) l2 0) as H.
  rewrite Nat.add_0_r in H. exact H.
Qed.






(** X16. [close] closes the session of a router that was used and does
    nothing to one that was not; closing twice is closing once; and a
    closed router stays closed: [process_content] after [close] keeps the
    closed session and opens no new one. *)
Theorem close_is_final (self : LLMRouter) (content : string)
    (operation : AIOperation) (user_tier : UserTier)
    (budget_constraint : option float) (net : network) :
  session (close (fst (process_content json_loads self content operation
                         user_tier budget_constraint net)))
  = Some (mkClientSession true) /\
  close (close self) = close self /\
  (session self = None -> close self = self) /\
  (session self <> None ->
   session (fst (process_content json_loads (close self) content operation
                   user_tier budget_constraint net))
   = Some (mkClientSession true)).
Proof.
  unfold process_content, ensure_session, close.
  destruct (session self) eqn:E; cbn; rewrite ?E; cbn;
    repeat split; try reflexivity; try congruence.
  all: intros _; destruct self; cbn in *; congruence.
Qed.

(** X17. Every result of a batch on a router built by [__init__] is well
    shaped (a success: no error, a numeric token count, a cost; a failure:
    an error message and no payload, token count or cost) and names a
    model of the requested tier, failures included. *)
Theorem process_batch_results_in_tier (key : string) (sess : option ClientSession)
    (contents : list string) (operation : AIOperation) (user_tier : UserTier)
    (budget_constraint : option float) (net : nat -> network) :
  Forall
    (fun r =>
       ((success r = true ->
         error r = None /\
         (exists t, tokens_used r = Some t /\ is_number t = true) /\
         cost r <> None) /\
        (success r = false ->
         error r <> None /\ result r = None /\ tokens_used r = None /\
         cost r = None)) /\
       exists m, In m (_initialize_models user_tier) /\
                 model_used r = Some (name m))
    (bs_results (process_batch json_loads (router key sess) contents operation
                   user_tier budget_constraint net)).
Proof.
  rewrite process_batch_results. apply Forall_forall. intros r Hr.
  apply in_map_iff in Hr. destruct Hr as ([i c] & <- & _). cbn [fst snd].
  split; [|apply process_content_in_tier].
  pose proof (process_content_shape json_loads (router key sess) c operation
                user_tier budget_constraint (net i)) as H.
  unfold well_shaped in H.
  destruct (success _); split; intros E; try discriminate E; tauto.
Qed.
End MoreBatchFacts.

(** ** Command line *)

Section MainFacts.
Variable json_loads : string -> M pyval.
Local Open Scope list_scope.

Lemma AIOperation_of_value_inv (s : string) (operation : AIOperation) :
  AIOperation_of_value s = inr operation -> AIOperation_value operation = s.
Proof.
  unfold AIOperation_of_value.
  repeat match goal with
         | |- context [String.eqb s ?c] =>
             destruct (String.eqb_spec s c) as [->|?];
             [intros [= <-]; reflexivity|]
         end.
  discriminate.
Qed.

Lemma UserTier_of_value_inv (s : string) (user_tier : UserTier) :
  UserTier_of_value s = inr user_tier -> UserTier_value user_tier = s.
Proof.
  unfold UserTier_of_value.
  repeat match goal with
         | |- context [String.eqb s ?c] =>
             destruct (String.eqb_spec s c) as [->|?];
             [intros [= <-]; reflexivity|]
         end.
  discriminate.
Qed.

Lemma AIOperation_choices (s : string) :
  In s operation_choices <-> exists operation, AIOperation_of_value s = inr operation.
Proof.
  split.
  - cbn. intros [<-|[<-|[<-|[<-|[]]]]]; eexists; reflexivity.
  - intros [operation H]. apply AIOperation_of_value_inv in H. subst s.
    destruct operation; cbn; auto.
Qed.

Lemma UserTier_choices (s : string) :
  In s user_tier_choices <-> exists user_tier, UserTier_of_value s = inr user_tier.
Proof.
  split.
  - cbn. intros [<-|[<-|[<-|[]]]]; eexists; reflexivity.
  - intros [user_tier H]. apply UserTier_of_value_inv in H. subst s.
    destruct user_tier; cbn; auto.
Qed.

(** X18. The enumerations round-trip through their values, and the
    command line offers exactly the values they have: looking up the value
    of a member gives the member back, a successful lookup returns the
    member with that value, and a string is among the [choices] of
    [--operation] (of [--user-tier]) exactly when [AIOperation(...)]
    ([UserTier(...)]) accepts it. *)
Theorem enumerations_round_trip :
  (forall operation,
      AIOperation_of_value (AIOperation_value operation) = inr operation) /\
  (forall s operation,
      AIOperation_of_value s = inr operation -> AIOperation_value operation = s) /\
  (forall s,
      In s operation_choices
      <-> exists operation, AIOperation_of_value s = inr operation) /\
  (forall user_tier,
      UserTier_of_value (UserTier_value user_tier) = inr user_tier) /\
  (forall s user_tier,
      UserTier_of_value s = inr user_tier -> UserTier_value user_tier = s) /\
  (forall s,
      In s user_tier_choices
      <-> exists user_tier, UserTier_of_value s = inr user_tier).
Proof.
  repeat split.
  - intros operation. now destruct operation.
  - apply AIOperation_of_value_inv.
  - apply AIOperation_choices.
  - apply AIOperation_choices.
  - intros user_tier. now destruct user_tier.
  - apply UserTier_of_value_inv.
  - apply UserTier_choices.
  - apply UserTier_choices.
Qed.

Lemma process_content_opens (self : LLMRouter) (content : string)
    (operation : AIOperation) (user_tier : UserTier)
    (budget_constraint : option float) (net : network) :
  session (fst (process_content json_loads self content operation user_tier
                  budget_constraint net)) <> None.
Proof.
  unfold process_content, ensure_session. cbn [fst].
  destruct (session self) eqn:E; [congruence|discriminate].
Qed.

Lemma close_not_open (self : LLMRouter) :
  session (close self) <> Some (mkClientSession false).
Proof.
  unfold close. destruct (session self) eqn:E; cbn; [discriminate|congruence].
Qed.

(** X19. For a namespace [argparse] has accepted (operation and tier among
    the choices), the exit status of [main] reports the API key, not the
    dispatch: it is 0 exactly when the key is set and not empty, whether or
    not the request then succeeded, and 1 otherwise.  On both paths [main]
    prints one object, and the router it built, if any, is left with no
    open session. *)
Theorem main_exit_status (env_key : option string) (args : Namespace)
    (net : network) :
  In (arg_operation args) operation_choices ->
  In (arg_user_tier args) user_tier_choices ->
  let out := main json_loads env_key args net in
  (exit_code out = 0 <-> exists key, env_key = Some key /\ key <> "") /\
  (exit_code out = 0 \/ exit_code out = 1) /\
  List.length (printed out) = 1%nat /\
  (forall r, final_router out = Some r ->
             session r <> Some (mkClientSession false)).
Proof.
  intros Ho Ht. cbv zeta. unfold main.
  apply AIOperation_choices in Ho. destruct Ho as [operation Ho].
  apply UserTier_choices in Ht. destruct Ht as [user_tier Ht].
  destruct env_key as [[|ch key]|].
  - cbn [exit_code printed final_router List.length].
    repeat split; auto; try discriminate.
    intros (key & [= <-] & Hk). congruence.
  - rewrite Ho, Ht. cbn [bind ret].
    destruct (process_content json_loads _ _ _ _ _ _) as [router' r'].
    cbn [exit_code printed final_router List.length]. repeat split; auto.
    + eexists. split; [reflexivity|discriminate].
    + intros r [= <-]. apply close_not_open.
  - cbn [exit_code printed final_router List.length].
    repeat split; auto; try discriminate.
    intros (key & [=] & _).
Qed.

(** X20. With a key and valid arguments [main] prints the result of the one
    [process_content] call on a fresh router, as an object with the keys
    [success], [result], [error], [model_used], [tokens_used] and [cost],
    indented by 2; its [success] entry is the result's, and the exit
    status is 0 also when that entry is false. *)
Theorem main_prints_the_result (key : string) (args : Namespace)
    (operation : AIOperation) (user_tier : UserTier) (net : network) :
  key <> "" ->
  arg_operation args = AIOperation_value operation ->
  arg_user_tier args = UserTier_value user_tier ->
  let r := snd (process_content json_loads (LLMRouter_init key) (arg_content args)
                  operation user_tier (arg_budget args) net) in
  let out := main json_loads (Some key) args net in
  printed out = [JsonDump (result_output r) (Some 2)] /\
  dict_lookup "success"
    match result_output r with PDict d => d | _ => [] end
  = Some (PBool (success r)) /\
  map fst match result_output r with PDict d => d | _ => [] end
  = ["success"; "result"; "error"; "model_used"; "tokens_used"; "cost"] /\
  exit_code out = 0.
Proof.
  intros Hk Ho Ht. cbv zeta. unfold main.
  destruct key as [|ch key]; [congruence|].
  rewrite Ho, Ht.
  replace (AIOperation_of_value (AIOperation_value operation))
    with (@inr exn _ operation) by now destruct operation.
  replace (UserTier_of_value (UserTier_value user_tier))
    with (@inr exn _ user_tier) by now destruct user_tier.
  cbn [bind ret].
  destruct (process_content json_loads _ _ _ _ _ _) as [router' r'].
  cbn. repeat split.
Qed.

(** X21. Without a usable configuration [main] sends nothing: when the key
    is missing or empty, or the operation or tier is not among the
    choices, its whole outcome is the same on every network; and for a
    missing or empty key the one object printed is the error
    ["OPENROUTER_API_KEY environment variable not set"], no router being
    built. *)
Theorem main_sends_nothing_unconfigured (env_key : option string)
    (args : Namespace) (net net' : network) :
  env_key = None \/ env_key = Some "" \/
  ~ In (arg_operation args) operation_choices \/
  ~ In (arg_user_tier args) user_tier_choices ->
  main json_loads env_key args net = main json_loads env_key args net' /\
  (env_key = None \/ env_key = Some "" ->
   main json_loads env_key args net
   = mkMainOutcome
       [JsonDump (PDict [("success", PBool false);
                         ("error",
                          PStr "OPENROUTER_API_KEY environment variable not set")])
                 None]
       1 None).
Proof.
  intros H. unfold main. destruct env_key as [[|ch key]|].
  - split; [reflexivity|]. intros _. reflexivity.
  - split; [|intros [E|E]; discriminate E].
    destruct H as [E|[E|[Ho|Ht]]]; try discriminate E.
    + destruct (AIOperation_of_value (arg_operation args)) as [e|operation] eqn:Eo;
        [reflexivity|].
      exfalso. apply Ho. apply AIOperation_choices. eauto.
    + destruct (AIOperation_of_value (arg_operation args)) as [e|operation] eqn:Eo;
        [reflexivity|].
      destruct (UserTier_of_value (arg_user_tier args)) as [e|user_tier] eqn:Et;
        [reflexivity|].
      exfalso. apply Ht. apply UserTier_choices. eauto.
  - split; [reflexivity|]. intros _. reflexivity.
Qed.
End MainFacts.

Lemma main_prints_the_result_witness :
  "sk" <> "" /\
  arg_operation (mkNamespace "hello" "categorize" "free" None)
  = AIOperation_value CATEGORIZE /\
  arg_user_tier (mkNamespace "hello" "categorize" "free" None)
  = UserTier_value FREE /\
  let r := snd (process_content reject_all (LLMRouter_init "sk")
                  (arg_content (mkNamespace "hello" "categorize" "free" None))
                  CATEGORIZE FREE
                  (arg_budget (mkNamespace "hello" "categorize" "free" None))
                  rate_limiting) in
  let out := main reject_all (Some "sk")
               (mkNamespace "hello" "categorize" "free" None) rate_limiting in
  printed out = [JsonDump (result_output r) (Some 2)] /\
  dict_lookup "success"
    match result_output r with PDict d => d | _ => [] end
  = Some (PBool (success r)) /\
  map fst match result_output r with PDict d => d | _ => [] end
  = ["success"; "result"; "error"; "model_used"; "tokens_used"; "cost"] /\
  exit_code out = 0.
Proof.
  split; [discriminate|]. split; [reflexivity|]. split; [reflexivity|].
  apply (main_prints_the_result reject_all "sk"
           (mkNamespace "hello" "categorize" "free" None) CATEGORIZE FREE
           rate_limiting); [discriminate|reflexivity|reflexivity].
Defined.

Lemma main_sends_nothing_unconfigured_witness :
  (Some "" = None \/ Some "" = Some "" \/
   ~ In (arg_operation (mkNamespace "hello" "categorize" "free" None))
        operation_choices \/
   ~ In (arg_user_tier (mkNamespace "hello" "categorize" "free" None))
        user_tier_choices) /\
  main reject_all (Some "") (mkNamespace "hello" "categorize" "free" None)
       rate_limiting
  = main reject_all (Some "") (mkNamespace "hello" "categorize" "free" None)
         rate_limiting_openrouter /\
  (Some "" = None \/ Some "" = Some "" ->
   main reject_all (Some "") (mkNamespace "hello" "categorize" "free" None)
        rate_limiting
   = mkMainOutcome
       [JsonDump (PDict [("success", PBool false);
                         ("error",
                          PStr "OPENROUTER_API_KEY environment variable not set")])
                 None]
       1 None).
Proof.
  split; [right; left; reflexivity|].
  apply (main_sends_nothing_unconfigured reject_all (Some "")
           (mkNamespace "hello" "categorize" "free" None) rate_limiting
           rate_limiting_openrouter).
  right; left; reflexivity.
Defined.

Lemma main_exit_status_witness :
  In (arg_operation (mkNamespace "hello" "categorize" "free" None))
     operation_choices /\
  In (arg_user_tier (mkNamespace "hello" "categorize" "free" None))
     user_tier_choices /\
  let out := main reject_all (Some "sk")
               (mkNamespace "hello" "categorize" "free" None) rate_limiting in
  (exit_code out = 0 <-> exists key, Some "sk" = Some key /\ key <> "") /\
  (exit_code out = 0 \/ exit_code out = 1) /\
  List.length (printed out) = 1%nat /\
  (forall r, final_router out = Some r ->
             session r <> Some (mkClientSession false)).
Proof.
  split; [now left|]. split; [now left|].
  apply (main_exit_status reject_all (Some "sk")
           (mkNamespace "hello" "categorize" "free" None) rate_limiting);
    now left.
Defined.

(** A rate-limited dispatch from the command line: a failure, printed, with
    exit status 0. *)
Example main_rate_limited :
  main reject_all (Some "sk") (mkNamespace "hello" "categorize" "free" None)
       rate_limiting
  = mkMainOutcome
      [JsonDump
         (PDict [ ("success", PBool false);
                  ("result", PNone);
                  ("error", PStr "API request failed with status 429: slow down");
                  ("model_used", PStr "anthropic/claude-3-haiku");
                  ("tokens_used", PNone);
                  ("cost", PNone) ])
         (Some 2)]
      0
      (Some (mkLLMRouter "sk" _initialize_models (Some (mkClientSession true)))).
Proof. reflexivity. Qed.

(** ** The request and what is read of the response *)

Section ExchangeFacts.
Local Open Scope list_scope.

(** X22. What a router built by [__init__] sends for a dispatch: one POST
    to the OpenRouter URL with the router's key as bearer token, whose
    payload names the selected model, carries the prompt as a single user
    message, always asks for 500 tokens (every shipped ceiling is above the
    cap, so [min(500, max_tokens)] is 500) and sets the temperature to 0.3
    for Categorize and 0.7 for the other operations. *)
Theorem shipped_request (net : network) (key : string) (user_tier : UserTier)
    (model : ModelConfig) (content : string) (operation : AIOperation) :
  In model (_initialize_models user_tier) ->
  exchange net key model content operation
  = net "https://openrouter.ai/api/v1/chat/completions"
        (PDict
           [ ("model", PStr (name model));
             ("messages",
              PList [PDict [("role", PStr "user");
                            ("content", PStr (create_prompt content operation))]]);
             ("max_tokens", PInt 500);
             ("temperature",
              PFloat match operation with
                     | CATEGORIZE => 0.3%float
                     | _ => 0.7%float
                     end) ])
        [ ("Authorization", "Bearer " ++ key)%string;
          ("Content-Type", "application/json");
          ("X-Title", "Second Brain Android App") ].
Proof.
  intros Hm. unfold exchange, request_payload, request_headers.
  assert (E : api_endpoint model = openrouter /\ Z.min 500 (max_tokens model) = 500).
  { destruct user_tier; cbn in Hm;
      repeat (destruct Hm as [<-|Hm]; [split; reflexivity|]); destruct Hm. }
  destruct E as [-> ->]. now destruct operation.
Qed.

Lemma shipped_request_witness :
  In gpt_4 (_initialize_models PRO) /\
  exchange rate_limiting "sk" gpt_4 "hello" SUMMARIZE
  = rate_limiting "https://openrouter.ai/api/v1/chat/completions"
      (PDict
         [ ("model", PStr (name gpt_4));
           ("messages",
            PList [PDict [("role", PStr "user");
                          ("content", PStr (create_prompt "hello" SUMMARIZE))]]);
           ("max_tokens", PInt 500);
           ("temperature", PFloat 0.7%float) ])
      [ ("Authorization", "Bearer " ++ "sk")%string;
        ("Content-Type", "application/json");
        ("X-Title", "Second Brain Android App") ].
Proof.
  split; [right; left; reflexivity|].
  apply (shipped_request rate_limiting "sk" PRO gpt_4 "hello" SUMMARIZE).
  right; left; reflexivity.
Defined.

(** Only one body of a response is read: on a status other than 200
    the result depends on the status and the text alone (not on the JSON
    body, nor on [json.loads]); on status 200 it does not depend on the
    text. *)
Lemma one_body_is_read (json_loads json_loads' : string -> M pyval)
    (model : ModelConfig) (operation : AIOperation) (status : Z)
    (text text' : M string) (json json' : M pyval) :
  (status <> 200 ->
   dispatch json_loads model operation (PostResponse status text json)
   = dispatch json_loads' model operation (PostResponse status text json')) /\
  dispatch json_loads model operation (PostResponse 200 text json)
  = dispatch json_loads model operation (PostResponse 200 text' json).
Proof.
  split; [|reflexivity].
  intros Hs. cbn [dispatch]. unfold handle_response.
  destruct (Z.eqb_spec status 200) as [|_]; [contradiction|]. reflexivity.
Qed.
End ExchangeFacts.
